(** * The SQL query service of the dashboard: a shallow embedding

    Source: [AbstractQueryService.ts] under
    [src/plugins/data-sources/abstract-sql-query-service]
    (filter translation, record operations, column pipeline) and the
    data-source validation schema that closes
    [src/plugins/data-sources/mysql/QueryService.ts].

    Conventions of the embedding.
    - JavaScript strings are [string] (lengths agree on ASCII text);
      JavaScript numbers are [Z].
    - A JavaScript object used as a dictionary is a [gmap string _]: the
      model keeps its own properties only, so column names that collide with
      members of [Object.prototype] are outside the model.
    - An object whose property order is observed ([Object.entries]) is an
      association list, in that order.
    - An [async] method is a computation in the monad [M]: it ends with a
      returned value or a thrown error and records, in order, every call it
      awaited on the schema inspector, the knex client, the module loader
      and the logger.
    - The errors that knex itself throws on the calls made here, a negative
      [offset] and an [update] without values, reject the method; the
      database behind the client is taken as answering. *)

From Stdlib Require Import ZArith Lia Ascii.
From stdpp Require Import base option list strings gmap fin_maps.

Set Warnings "-register-all".

Local Open Scope string_scope.
Local Open Scope Z_scope.
Local Open Scope list_scope.

(** ** JavaScript values *)

Inductive Json : Type :=
| JNull
| JBool (b : bool)
| JNum (n : Z)
| JStr (s : string)
| JArr (items : list Json)
| JObj (fields : list (string * Json)).

(** An options bag ([baseOptions], [fieldOptions]): property name to value. *)
Abbreviation Options := (gmap string Json).

(** lodash [isNumber]; [undefined] is [None]. *)
Definition isNumber (v : option Json) : bool :=
  match v with Some (JNum _) => true | _ => false end.

(** Truthiness of a string that may be [undefined]. *)
Definition truthy (v : option string) : bool :=
  match v with
  | Some s => negb (String.eqb s "")
  | None => false
  end.

(** [Object.fromEntries]: entries are written left to right, so the last
    entry of a repeated key is the one that stays. *)
Definition fromEntries {V : Type} (entries : list (string * V))
  : gmap string V :=
  foldl (fun m kv => <[ kv.1 := kv.2 ]> m) ∅ entries.

(** ** Filters *)

(** Modelled from the spec: [IFilter] is declared in
    [features/tables/components/Filter], which is not among the sources;
    section 3 of the specification gives a filter as
    [{columnName, condition, value}], the three properties the code reads. *)
Record IFilter : Type := {
  columnName : string;
  condition : string;
  value : string;
}.

(** Modelled from the spec: the enum [StringFilterConditions] lives in
    [features/tables/components/StringConditionComponent], which is not
    among the sources; section 3 of the specification lists the members,
    each spelled as its own name. *)
Module StringFilterConditions.
Definition is_not : string := "is_not".
Definition not_contains : string := "not_contains".
Definition starts_with : string := "starts_with".
Definition ends_with : string := "ends_with".
Definition is_empty : string := "is_empty".
Definition is_not_empty : string := "is_not_empty".
End StringFilterConditions.

(** A [switch] on a string: the first [case] equal to the scrutinee is
    taken, and [default] only when none is. *)
Fixpoint switch {A : Type} (scrutinee : string)
    (cases : list (string * A)) (default : A) : A :=
  match cases with
  | [] => default
  | (label, body) :: rest =>
      if String.eqb scrutinee label then body
      else switch scrutinee rest default
  end.

Definition getCondition (filter : IFilter) : string :=
  switch (condition filter)
    [ ("is", "=");
      (StringFilterConditions.is_not, "!=");
      ("contains", "LIKE");
      (StringFilterConditions.not_contains, "NOT LIKE");
      (StringFilterConditions.starts_with, "LIKE");
      (StringFilterConditions.ends_with, "LIKE");
      (StringFilterConditions.is_empty, "LIKE");
      (StringFilterConditions.is_not_empty, "LIKE");
      (">", ">");
      (">=", ">=");
      ("<", "<");
      ("<=", "<=") ]
    "=".

Definition getValue (filter : IFilter) : string :=
  switch (condition filter)
    [ ("is", value filter);
      (StringFilterConditions.is_not, value filter);
      ("contains", "%" +:+ value filter +:+ "%");
      (StringFilterConditions.not_contains, "%" +:+ value filter +:+ "%");
      (StringFilterConditions.starts_with, "%" +:+ value filter);
      (StringFilterConditions.ends_with, value filter +:+ "%");
      (StringFilterConditions.is_not_empty, "");
      (StringFilterConditions.is_empty, "") ]
    (value filter).

(** ** Outcomes *)

(** How a call ends: with a value, or with a thrown [Error] and its
    message. *)
Inductive Outcome (A : Type) : Type :=
| Returned (a : A)
| Thrown (message : string).
Arguments Returned {A} a.
Arguments Thrown {A} message.

(** ** The knex query builder *)

Inductive Method : Type := MSelect | MInsert | MUpdate | MDel.

Inductive Statement : Type :=
| Columns (names : list string)
| Where (column operator value : string)
| WhereIn (column : string) (values : list Z)
| OrderBy (column direction : string).

(** A builder, as the calls made on it: the method, table, limit and
    offset are single values that the last call sets; the select lists, the
    where clauses and the orderings accumulate in call order. *)
Record QueryBuilder : Type := {
  q_method : Method;
  q_table : option string;
  q_limit : option Z;
  q_offset : option Z;
  q_statements : list Statement;
  q_data : option Json;
  q_returning : option string;
}.

Module Knex.
(** [client.table(name)], also the start of every chain below. *)
Definition table (name : string) : QueryBuilder :=
    {| q_method := MSelect; q_table := Some name; q_limit := None;
       q_offset := None; q_statements := []; q_data := None;
       q_returning := None |}.

Definition set_table (name : string) (q : QueryBuilder) : QueryBuilder :=
    {| q_method := q_method q; q_table := Some name; q_limit := q_limit q;
       q_offset := q_offset q; q_statements := q_statements q;
       q_data := q_data q; q_returning := q_returning q |}.

Definition push (s : Statement) (q : QueryBuilder) : QueryBuilder :=
    {| q_method := q_method q; q_table := q_table q; q_limit := q_limit q;
       q_offset := q_offset q; q_statements := q_statements q ++ [s];
       q_data := q_data q; q_returning := q_returning q |}.

Definition limit (n : Z) (q : QueryBuilder) : QueryBuilder :=
    {| q_method := q_method q; q_table := q_table q; q_limit := Some n;
       q_offset := q_offset q; q_statements := q_statements q;
       q_data := q_data q; q_returning := q_returning q |}.

(** [offset(value)] throws at a negative number, and sets nothing. *)
Definition offset (n : Z) (q : QueryBuilder) : Outcome QueryBuilder :=
    if n <? 0
    then Thrown "A non-negative integer must be provided to offset."
    else
      Returned
        {| q_method := q_method q; q_table := q_table q;
           q_limit := q_limit q; q_offset := Some n;
           q_statements := q_statements q; q_data := q_data q;
           q_returning := q_returning q |}.

Definition select (names : list string) (q : QueryBuilder) : QueryBuilder :=
    push (Columns names) q.

Definition where_ (column operator value : string) (q : QueryBuilder)
    : QueryBuilder := push (Where column operator value) q.

(** [where(column, value)] is [where(column, "=", value)]. *)
Definition where_eq (column value : string) (q : QueryBuilder)
    : QueryBuilder := where_ column "=" value q.

Definition whereIn (column : string) (values : list Z) (q : QueryBuilder)
    : QueryBuilder := push (WhereIn column values) q.

Definition orderBy (column direction : string) (q : QueryBuilder)
    : QueryBuilder := push (OrderBy column direction) q.

Definition with_method (m : Method) (data : option Json) (q : QueryBuilder)
    : QueryBuilder :=
    {| q_method := m; q_table := q_table q; q_limit := q_limit q;
       q_offset := q_offset q; q_statements := q_statements q;
       q_data := data; q_returning := q_returning q |}.

Definition insert (data : Json) := with_method MInsert (Some data).
Definition delete := with_method MDel None.

(** [update(values)] reads [Object.keys(values)], a [TypeError] at
    [null]. *)
Definition update (data : Json) (q : QueryBuilder) : Outcome QueryBuilder :=
    match data with
    | JNull => Thrown "Cannot convert undefined or null to object"
    | _ => Returned (with_method MUpdate (Some data) q)
    end.

(** The error of an update that holds no value to set; it ends with the
    table and with [Object.keys] of what the builder kept. *)
Definition empty_update (table : option string) (columns : string) : string :=
    "Empty .update() call detected! "
    +:+ "Update data does not contain any values to update. "
    +:+ "This will result in a faulty query. "
    +:+ match table with
        | Some name => "Table: " +:+ name +:+ "."
        | None => ""
        end
    +:+ " Columns: " +:+ columns +:+ ".".

(** A builder is compiled when it is awaited, and the compiler refuses an
    update without values before anything is sent: an object without
    properties, an empty array, a number and a boolean have no keys, and a
    string is the column of [update(column, value)], here with no value. *)
Definition refusal (q : QueryBuilder) : option string :=
    match q_method q, q_data q with
    | MUpdate, Some (JObj []) | MUpdate, Some (JArr [])
    | MUpdate, Some (JNum _) | MUpdate, Some (JBool _) =>
        Some (empty_update (q_table q) "")
    | MUpdate, Some (JStr column) => Some (empty_update (q_table q) column)
    | _, _ => None
    end.

Definition returning (column : string) (q : QueryBuilder) : QueryBuilder :=
    {| q_method := q_method q; q_table := q_table q; q_limit := q_limit q;
       q_offset := q_offset q; q_statements := q_statements q;
       q_data := q_data q; q_returning := Some column |}.

(** [client.select(columns)]: a chain that starts without a table. *)
Definition start_select (names : list string) : QueryBuilder :=
    {| q_method := MSelect; q_table := None; q_limit := None;
       q_offset := None; q_statements := [Columns names]; q_data := None;
       q_returning := None |}.
End Knex.

Definition addFilterToQuery (query : QueryBuilder) (filter : IFilter)
  : QueryBuilder :=
  Knex.where_ (columnName filter) (getCondition filter) (getValue filter) query.

(** The statement a filter compiles to. *)
Definition compiled (filter : IFilter) : Statement :=
  Where (columnName filter) (getCondition filter) (getValue filter).

(** The conditions of the enumeration of section 3. *)
Definition enumeration : list string :=
  [ "is"; "is_not"; "contains"; "not_contains"; "starts_with"; "ends_with";
    "is_empty"; "is_not_empty"; ">"; ">="; "<"; "<=" ].

(** The pair (limit, offset) when both are numbers. *)
Definition paginated (limit offset : option Json) : option (Z * Z) :=
  match limit, offset with
  | Some (JNum l), Some (JNum o) => Some (l, o)
  | _, _ => None
  end.

(** Whether the call reaches [offset] with a negative number. *)
Definition negativeOffset (limit offset : option Json) : bool :=
  match paginated limit offset with
  | Some (_, o) => o <? 0
  | None => false
  end.

(** ** Engine metadata *)

(** [Knex.ColumnInfo]: what [client.table(t).columnInfo()] reports for one
    column. *)
Record ColumnInfo : Type := {
  type : string;
  nullable : bool;
  maxLength : option Z;
  defaultValue : option Json;
}.

(** One entry of [inspector.columnInfo(table)] (knex-schema-inspector). *)
Module InspectedColumn.
Record t : Type := {
  name : string;
  table : string;
  data_type : string;
  is_primary_key : bool;
}.
End InspectedColumn.

(** One entry of [inspector.foreignKeys()]. *)
Module InspectedForeignKey.
Record t : Type := {
  constraint_name : option string;
  table : string;
  column : string;
  foreign_key_table : string;
  foreign_key_column : string;
  foreign_key_schema : option string;
  on_update : option string;
  on_delete : option string;
}.
End InspectedForeignKey.

Module ForeignKeyInfo.
Record t : Type := {
  constraintName : option string;
  tableName : string;
  columnName : string;
  foreignTableName : string;
  foreignColumnName : string;
  foreignTableSchema : option string;
  onUpdate : option string;
  onDelete : option string;
}.
End ForeignKeyInfo.

(** ** The service and its collaborators *)

(** The schema inspector, as the answers it gives. *)
Record SchemaInspector : Type := {
  inspector_columnInfo : string -> list InspectedColumn.t;
  inspector_foreignKeys : list InspectedForeignKey.t;
}.

(** The knex client, as the answers it gives: the column dictionary of a
    table in [Object.entries] order, the rows a select or an
    [insert ... returning] resolves to, and the count an update or a delete
    resolves to. *)
Record KnexClient : Type := {
  client_columnInfo : string -> list (string * ColumnInfo);
  client_rows : QueryBuilder -> list Json;
  client_affected : QueryBuilder -> Z;
}.

(** [this]: the fields of [AbstractQueryService] that the methods read. *)
Record QueryService : Type := {
  client : KnexClient;
  inspector : SchemaInspector;
}.

(** ** Effects *)

(** What a method awaited, in order. *)
Inductive Event : Type :=
| InspectColumns (table : string)
| InspectForeignKeys
| ColumnInfoOf (table : string)
| Run (query : QueryBuilder)
| Import (path : string)
| Warn (msg : string).

Definition M (A : Type) : Type := Outcome A * list Event.

Definition ret {A : Type} (a : A) : M A := (Returned a, []).

Definition throw {A : Type} (message : string) : M A := (Thrown message, []).

Definition bind {A B : Type} (m : M A) (k : A -> M B) : M B :=
  match m with
  | (Returned a, before) =>
      let '(out, after) := k a in (out, before ++ after)
  | (Thrown message, before) => (Thrown message, before)
  end.

(** A call that awaits nothing. *)
Definition settled {A : Type} (result : Outcome A) : M A := (result, []).

(** An awaited call: the event, and the answer it resolved to. *)
Definition await {A : Type} (e : Event) (answer : A) : M A :=
  (Returned answer, [e]).

Declare Scope async_scope.
Delimit Scope async_scope with async.
Notation "'let!' x ':=' m 'in' k" := (bind m (fun x => k))
  (at level 10, x name, m at level 100, k at level 200) : async_scope.
Local Open Scope async_scope.

Definition outcome {A : Type} (m : M A) : Outcome A := m.1.
Definition events {A : Type} (m : M A) : list Event := m.2.

(** The queries a run sent to the knex client. *)
Definition queries (log : list Event) : list QueryBuilder :=
  omap (fun e => match e with Run q => Some q | _ => None end) log.

(** The value a run returned, if it returned. *)
Definition returned {A : Type} (m : M A) : option A :=
  match outcome m with
  | Returned a => Some a
  | Thrown _ => None
  end.

(** ** Record operations *)

Section Records.
Variable this : QueryService.

(** [columnInfo.find(({ is_primary_key }) => is_primary_key === true)?.name] *)
Definition getPrimaryKeyColumn (tableName : string) : M (option string) :=
  let! columnInfo :=
    await (InspectColumns tableName)
          (inspector_columnInfo (inspector this) tableName) in
  ret (InspectedColumn.name
       <$> List.find (fun c => InspectedColumn.is_primary_key c) columnInfo).

(** The builder [query] is changed in place by each step; here every step
    yields the next builder. An error that knex throws at a step rejects
    the call there. The method returns the builder itself, which the
    caller's [await] runs. *)
Definition getRecords (tableName : string) (limit offset : option Json)
    (filters : option (list IFilter)) (orderBy : option string)
    (orderDirection : string) (select : list string) : M (list Json) :=
  let query := Knex.table tableName in
  let! query :=
    match limit, offset with
    | Some (JNum l), Some (JNum o) =>
        let! query := settled (Knex.offset o (Knex.limit l query)) in
        ret (Knex.select select query)
    | _, _ => ret query
    end in
  let query :=
    match filters with
    | Some fs => foldl addFilterToQuery query fs
    | None => query
    end in
  let query :=
    if truthy orderBy
    then Knex.orderBy (tableName +:+ "." +:+ default "" orderBy)
                      orderDirection query
    else query in
  await (Run query) (client_rows (client this) query).

(** The message of the error thrown when [!pk]. *)
Definition no_primary_key (tableName : string) : string :=
  "Can't find a primary key for table " +:+ tableName +:+ ".".

Definition getRecord (tableName recordId : string) (select : list string)
  : M (option Json) :=
  let! pk := getPrimaryKeyColumn tableName in
  if negb (truthy pk) then throw (no_primary_key tableName)
  else
    let query :=
      Knex.set_table tableName
        (Knex.where_eq (default "" pk) recordId (Knex.start_select select)) in
    let! rows := await (Run query) (client_rows (client this) query) in
    ret (head rows).

Definition createRecord (tableName : string) (data : Json)
  : M (option Json) :=
  let! pk := getPrimaryKeyColumn tableName in
  if negb (truthy pk) then throw (no_primary_key tableName)
  else
    let query :=
      Knex.returning (default "" pk)
        (Knex.insert data (Knex.table tableName)) in
    let! ids := await (Run query) (client_rows (client this) query) in
    ret (head ids).

Definition updateRecord (tableName recordId : string) (data : Json) : M Z :=
  let! pk := getPrimaryKeyColumn tableName in
  if negb (truthy pk) then throw (no_primary_key tableName)
  else
    let! query := settled (Knex.update data (Knex.table tableName)) in
    let query := Knex.where_eq (default "" pk) recordId query in
    match Knex.refusal query with
    | Some message => throw message
    | None => await (Run query) (client_affected (client this) query)
    end.

Definition deleteRecord (tableName recordId : string) : M Z :=
  let! pk := getPrimaryKeyColumn tableName in
  if negb (truthy pk) then throw (no_primary_key tableName)
  else
    let query :=
      Knex.where_eq (default "" pk) recordId
        (Knex.delete (Knex.table tableName)) in
    await (Run query) (client_affected (client this) query).

Definition deleteRecords (tableName : string) (recordIds : list Z) : M Z :=
  let! pk := getPrimaryKeyColumn tableName in
  if negb (truthy pk) then throw (no_primary_key tableName)
  else
    let query :=
      Knex.whereIn (default "" pk) recordIds
        (Knex.delete (Knex.table tableName)) in
    await (Run query) (client_affected (client this) query).

(** The constraints that start at the table, with the property names the
    rest of the code uses. *)
Definition getForeignKeys (tableName : string) : M (list ForeignKeyInfo.t) :=
  let! all :=
    await InspectForeignKeys (inspector_foreignKeys (inspector this)) in
  ret (map (fun fkInfo =>
              {| ForeignKeyInfo.constraintName :=
                   InspectedForeignKey.constraint_name fkInfo;
                 ForeignKeyInfo.tableName := InspectedForeignKey.table fkInfo;
                 ForeignKeyInfo.columnName := InspectedForeignKey.column fkInfo;
                 ForeignKeyInfo.foreignTableName :=
                   InspectedForeignKey.foreign_key_table fkInfo;
                 ForeignKeyInfo.foreignColumnName :=
                   InspectedForeignKey.foreign_key_column fkInfo;
                 ForeignKeyInfo.foreignTableSchema :=
                   InspectedForeignKey.foreign_key_schema fkInfo;
                 ForeignKeyInfo.onUpdate :=
                   InspectedForeignKey.on_update fkInfo;
                 ForeignKeyInfo.onDelete :=
                   InspectedForeignKey.on_delete fkInfo |})
           (filter (fun fkInfo => InspectedForeignKey.table fkInfo = tableName)
                   all)).
End Records.

(** ** Columns *)

(** The stored column configuration of one column: what the caller
    persisted for it, every part optional (section 6 of the specification:
    [{fieldType?, baseOptions?, fieldOptions?, label?}]). *)
Module StoredColumn.
Record t : Type := {
  fieldType : option string;
  baseOptions : option Options;
  fieldOptions : option Options;
  label : option string;
}.
End StoredColumn.

(** The intermediate column types of [./types], which is not among the
    sources: each has the properties of the object literal that builds it
    in [getColumns]. *)
Module ColumnWithSourceInfo.
Record t : Type := {
  name : string;
  label : string;
  dataSourceInfo : ColumnInfo;
  primaryKey : bool;
}.
End ColumnWithSourceInfo.

Module ColumnWithForeignKeyInfo.
Record t : Type := {
  name : string;
  label : string;
  dataSourceInfo : ColumnInfo;
  primaryKey : bool;
  foreignKeyInfo : option ForeignKeyInfo.t;
}.
End ColumnWithForeignKeyInfo.

Module ColumnWithBaseOptions.
Record t : Type := {
  name : string;
  label : string;
  dataSourceInfo : ColumnInfo;
  primaryKey : bool;
  foreignKeyInfo : option ForeignKeyInfo.t;
  baseOptions : Options;
}.
End ColumnWithBaseOptions.

Module ColumnWithFieldType.
Record t : Type := {
  name : string;
  label : string;
  dataSourceInfo : ColumnInfo;
  primaryKey : bool;
  foreignKeyInfo : option ForeignKeyInfo.t;
  baseOptions : Options;
  fieldType : string;
}.
End ColumnWithFieldType.

(** The complete column. [ColumnWithFieldOptions], [ColumnWithStoredOptions]
    and [Column<SqlColumnOptions>] are objects with these same properties. *)
Module Column.
Record t : Type := {
  name : string;
  label : string;
  dataSourceInfo : ColumnInfo;
  primaryKey : bool;
  foreignKeyInfo : option ForeignKeyInfo.t;
  baseOptions : Options;
  fieldType : string;
  fieldOptions : Options;
}.
End Column.

(** What a dynamic [import(path)] settles to: the module, of which only the
    [default] export is read, or a rejection carrying an error [code]. *)
Inductive Imported : Type :=
| Loaded (default : option Options)
| Rejected (code : string).

(** [{ ...first, ...second }] on options bags: a key of [second] replaces
    the same key of [first]. *)
Definition spread (first second : Options) : Options := second ∪ first.

(** [array.includes(x)] on strings. *)
Definition includes (array : list string) (x : string) : bool :=
  existsb (String.eqb x) array.

(** [Promise.all(items.map(f))], the calls taken one after the other. *)
Fixpoint forEachAsync {A B : Type} (f : A -> M B) (items : list A)
  : M (list B) :=
  match items with
  | [] => ret []
  | item :: rest =>
      let! b := f item in
      let! bs := forEachAsync f rest in
      ret (b :: bs)
  end.

Section Columns.
(** Collaborators that are not among the sources, taken as parameters:
    [humanize] of [lib/humanize], [idColumns] and [getBaseOptions] of
    [features/fields], and the module loader behind [import()]. *)
Variable humanize : string -> string.
Variable idColumns : list string.
Variable getBaseOptions : Options.
Variable loadModule : string -> Imported.

Variable this : QueryService.

Definition getColumnLabel (column : Column.t) : string :=
  if String.eqb (Column.name column) "id" then "ID"
  else humanize (Column.name column).

Definition getFieldTypeFromColumnInfo (column : ColumnWithBaseOptions.t)
  : string :=
  if bool_decide (is_Some (ColumnWithBaseOptions.foreignKeyInfo column))
  then "Association"
  else
    let name := ColumnWithBaseOptions.name column in
    let number := if includes idColumns name then "Id" else "Number" in
    switch (type (ColumnWithBaseOptions.dataSourceInfo column))
      [ ("character", "Text");
        ("character varying", "Text");
        ("interval", "Text");
        ("name", "Text");
        ("boolean", "Boolean");
        ("bit", "Boolean");
        ("timestamp without time zone", "DateTime");
        ("timestamp with time zone", "DateTime");
        ("time without time zone", "DateTime");
        ("time with time zone", "DateTime");
        ("date", "DateTime");
        ("json", "Json");
        ("jsonb", "Json");
        ("text", "Textarea");
        ("xml", "Textarea");
        ("bytea", "Textarea");
        ("integer", number);
        ("bigint", number);
        ("numeric", number);
        ("smallint", number);
        ("oid", number);
        ("uuid", number);
        ("real", number);
        ("double precision", number);
        ("money", number) ]
      "Text".

Definition fieldOptionsPath (fieldType : string) : string :=
  "@/plugins/fields/" +:+ fieldType +:+ "/fieldOptions".

Definition getDefaultFieldOptionsForFields
    (columns : list ColumnWithFieldType.t)
  : M (gmap string (option Options)) :=
  let! fieldOptionsTuple :=
    forEachAsync
      (fun column =>
         let path := fieldOptionsPath (ColumnWithFieldType.fieldType column) in
         let! module := await (Import path) (loadModule path) in
         match module with
         | Loaded default =>
             ret (Some (ColumnWithFieldType.name column, default))
         | Rejected code =>
             if negb (String.eqb code "MODULE_NOT_FOUND")
             then
               let! logged :=
                 await (Warn ("Can't get the field options for '"
                              +:+ ColumnWithFieldType.name column
                              +:+ "' field.")) tt in
               ret None
             else ret None
         end)
      columns in
  ret (fromEntries (omap id fieldOptionsTuple)).

(** [!isUndefined(storedColumns) ? storedColumns[name] : undefined] *)
Definition storedColumnOf (storedColumns : option (gmap string StoredColumn.t))
    (name : string) : option StoredColumn.t :=
  match storedColumns with
  | Some stored => stored !! name
  | None => None
  end.

(** [a || b] on a string that may be [undefined]: the empty string is
    falsy as well. *)
Definition or_else (a : option string) (b : string) : string :=
  match a with
  | Some s => if String.eqb s "" then b else s
  | None => b
  end.

(** The callbacks of the seven [map] calls of [getColumns], in order. *)

Definition withSourceInfo (primaryKeyColumn : option string)
    (entry : string * ColumnInfo) : ColumnWithSourceInfo.t :=
  let '(name, columnInfo) := entry in
  {| ColumnWithSourceInfo.name := name;
     ColumnWithSourceInfo.label := name;
     ColumnWithSourceInfo.dataSourceInfo := columnInfo;
     ColumnWithSourceInfo.primaryKey :=
       bool_decide (primaryKeyColumn = Some name) |}.

Definition withForeignKeyInfo
    (foreignKeysByColumnName : gmap string ForeignKeyInfo.t)
    (column : ColumnWithSourceInfo.t) : ColumnWithForeignKeyInfo.t :=
  {| ColumnWithForeignKeyInfo.name := ColumnWithSourceInfo.name column;
     ColumnWithForeignKeyInfo.label := ColumnWithSourceInfo.label column;
     ColumnWithForeignKeyInfo.dataSourceInfo :=
       ColumnWithSourceInfo.dataSourceInfo column;
     ColumnWithForeignKeyInfo.primaryKey :=
       ColumnWithSourceInfo.primaryKey column;
     ColumnWithForeignKeyInfo.foreignKeyInfo :=
       foreignKeysByColumnName !! ColumnWithSourceInfo.name column |}.

Definition withBaseOptions (baseOptions : Options)
    (column : ColumnWithForeignKeyInfo.t) : ColumnWithBaseOptions.t :=
  {| ColumnWithBaseOptions.name := ColumnWithForeignKeyInfo.name column;
     ColumnWithBaseOptions.label := ColumnWithForeignKeyInfo.label column;
     ColumnWithBaseOptions.dataSourceInfo :=
       ColumnWithForeignKeyInfo.dataSourceInfo column;
     ColumnWithBaseOptions.primaryKey :=
       ColumnWithForeignKeyInfo.primaryKey column;
     ColumnWithBaseOptions.foreignKeyInfo :=
       ColumnWithForeignKeyInfo.foreignKeyInfo column;
     ColumnWithBaseOptions.baseOptions := baseOptions |}.

Definition withFieldType (storedColumns : option (gmap string StoredColumn.t))
    (column : ColumnWithBaseOptions.t) : ColumnWithFieldType.t :=
  let storedColumn :=
    storedColumnOf storedColumns (ColumnWithBaseOptions.name column) in
  (* Try and find if the user defined this type in the DB *)
  let fieldType :=
    or_else (storedColumn ≫= StoredColumn.fieldType)
            (getFieldTypeFromColumnInfo column) in
  {| ColumnWithFieldType.name := ColumnWithBaseOptions.name column;
     ColumnWithFieldType.label := ColumnWithBaseOptions.label column;
     ColumnWithFieldType.dataSourceInfo :=
       ColumnWithBaseOptions.dataSourceInfo column;
     ColumnWithFieldType.primaryKey := ColumnWithBaseOptions.primaryKey column;
     ColumnWithFieldType.foreignKeyInfo :=
       ColumnWithBaseOptions.foreignKeyInfo column;
     ColumnWithFieldType.baseOptions :=
       ColumnWithBaseOptions.baseOptions column;
     ColumnWithFieldType.fieldType := fieldType |}.

Definition withFieldOptions
    (fieldOptionsByFieldName : gmap string (option Options))
    (column : ColumnWithFieldType.t) : Column.t :=
  let fieldOptions :=
    match fieldOptionsByFieldName !! ColumnWithFieldType.name column with
    | Some (Some options) => options
    | _ => ∅
    end in
  {| Column.name := ColumnWithFieldType.name column;
     Column.label := ColumnWithFieldType.label column;
     Column.dataSourceInfo := ColumnWithFieldType.dataSourceInfo column;
     Column.primaryKey := ColumnWithFieldType.primaryKey column;
     Column.foreignKeyInfo := ColumnWithFieldType.foreignKeyInfo column;
     Column.baseOptions := ColumnWithFieldType.baseOptions column;
     Column.fieldType := ColumnWithFieldType.fieldType column;
     Column.fieldOptions := fieldOptions |}.

Definition withStoredOptions
    (storedColumns : option (gmap string StoredColumn.t))
    (column : Column.t) : Column.t :=
  let storedColumn := storedColumnOf storedColumns (Column.name column) in
  let baseOptions := default ∅ (storedColumn ≫= StoredColumn.baseOptions) in
  let fieldOptions := default ∅ (storedColumn ≫= StoredColumn.fieldOptions) in
  {| Column.name := Column.name column;
     Column.label := Column.label column;
     Column.dataSourceInfo := Column.dataSourceInfo column;
     Column.primaryKey := Column.primaryKey column;
     Column.foreignKeyInfo := Column.foreignKeyInfo column;
     Column.baseOptions := spread (Column.baseOptions column) baseOptions;
     Column.fieldType := Column.fieldType column;
     Column.fieldOptions := spread (Column.fieldOptions column) fieldOptions |}.

Definition withLabel (column : Column.t) : Column.t :=
  {| Column.name := Column.name column;
     Column.label := getColumnLabel column;
     Column.dataSourceInfo := Column.dataSourceInfo column;
     Column.primaryKey := Column.primaryKey column;
     Column.foreignKeyInfo := Column.foreignKeyInfo column;
     Column.baseOptions := Column.baseOptions column;
     Column.fieldType := Column.fieldType column;
     Column.fieldOptions := Column.fieldOptions column |}.

Definition getColumns (tableName : string)
    (storedColumns : option (gmap string StoredColumn.t)) : M (list Column.t) :=
  let! rawColumns :=
    await (ColumnInfoOf tableName)
          (client_columnInfo (client this) tableName) in
  let! primaryKeyColumn := getPrimaryKeyColumn this tableName in
  let! foreignKeys := getForeignKeys this tableName in
  let foreignKeysByColumnName :=
    fromEntries
      (map (fun fk => (ForeignKeyInfo.columnName fk, fk)) foreignKeys) in
  let columnsWithDataSourceInfo :=
    map (withSourceInfo primaryKeyColumn) rawColumns in
  let columnsWithForeignKeyInfo :=
    map (withForeignKeyInfo foreignKeysByColumnName)
        columnsWithDataSourceInfo in
  let baseOptions := getBaseOptions in
  let columnsWithBaseOptions :=
    map (withBaseOptions baseOptions) columnsWithForeignKeyInfo in
  let columnsWithFieldType :=
    map (withFieldType storedColumns) columnsWithBaseOptions in
  let! fieldOptionsByFieldName :=
    getDefaultFieldOptionsForFields columnsWithFieldType in
  let columnsWithFieldOptions :=
    map (withFieldOptions fieldOptionsByFieldName) columnsWithFieldType in
  let columnsWithStoredOptions :=
    map (withStoredOptions storedColumns) columnsWithFieldOptions in
  let columns := map withLabel columnsWithStoredOptions in
  ret columns.

(** *** Views of a run

    What [getColumns] awaited and built, named so that the properties can
    speak of it. *)

(** What the inspector answers for a table, as [getColumns] reads it. *)
Definition primaryKeyOf (tableName : string) : option string :=
  InspectedColumn.name <$> List.find (fun c => InspectedColumn.is_primary_key c)
                (inspector_columnInfo (inspector this) tableName).

Definition foreignKeysOf (tableName : string) : gmap string ForeignKeyInfo.t :=
  fromEntries
    (map (fun fk => (ForeignKeyInfo.columnName fk, fk))
       (default [] (returned (getForeignKeys this tableName)))).

(** The entry that the loader contributes for a column, if any. *)
Definition entryOf (column : ColumnWithFieldType.t)
  : option (string * option Options) :=
  match loadModule (fieldOptionsPath (ColumnWithFieldType.fieldType column)) with
  | Loaded default => Some (ColumnWithFieldType.name column, default)
  | Rejected _ => None
  end.

(** The default export of the options module of a field type, or the empty
    bag when the module is missing or has no default export. *)
Definition moduleDefault (fieldType : string) : Options :=
  match loadModule (fieldOptionsPath fieldType) with
  | Loaded (Some options) => options
  | _ => ∅
  end.

(** A raw column after the first four stages. *)
Definition typed (tableName : string)
    (storedColumns : option (gmap string StoredColumn.t))
    (entry : string * ColumnInfo) : ColumnWithFieldType.t :=
  withFieldType storedColumns
    (withBaseOptions getBaseOptions
       (withForeignKeyInfo (foreignKeysOf tableName)
          (withSourceInfo (primaryKeyOf tableName) entry))).

(** A raw column after all seven stages. *)
Definition assembled (tableName : string)
    (storedColumns : option (gmap string StoredColumn.t))
    (fieldOptionsByFieldName : gmap string (option Options))
    (entry : string * ColumnInfo) : Column.t :=
  withLabel
    (withStoredOptions storedColumns
       (withFieldOptions fieldOptionsByFieldName
          (typed tableName storedColumns entry))).
End Columns.

(** ** The validation schema of a new data source *)

(** [object[key]] on an object value: [None] is [undefined]. *)
Fixpoint property (key : string) (fields : list (string * Json))
  : option Json :=
  match fields with
  | [] => None
  | (k, v) :: rest => if String.eqb key k then Some v else property key rest
  end.

(** The part of the joi library that the schema uses, with joi's default
    validation options: a key is optional unless [required()], a string
    schema takes strings only and refuses the empty string, [min] bounds the
    length, [valid] leaves the listed values as the only ones, and an object
    schema refuses keys it does not declare. JSON text handed in where an
    object is expected is outside the model. *)
Module Joi.
Inductive Schema : Type :=
| StringSchema (minLength : option nat) (allowed : option (list string))
               (presence : bool)
| ObjectSchema (keys : list (string * Schema)) (presence : bool).


Definition object (keys : list (string * Schema)) : Schema :=
  ObjectSchema keys false.

Definition min (n : nat) (s : Schema) : Schema :=
  match s with
  | StringSchema _ allowed presence => StringSchema (Some n) allowed presence
  | ObjectSchema keys presence => ObjectSchema keys presence
  end.

Definition valid (values : list String.string) (s : Schema) : Schema :=
  match s with
  | StringSchema minLength _ presence =>
      StringSchema minLength (Some values) presence
  | ObjectSchema keys presence => ObjectSchema keys presence
  end.

Definition required (s : Schema) : Schema :=
  match s with
  | StringSchema minLength allowed _ => StringSchema minLength allowed true
  | ObjectSchema keys _ => ObjectSchema keys true
  end.

(** [schema.validate(value)] reports no error. *)
Fixpoint accepts (s : Schema) (value : option Json) {struct s} : bool :=
  match s with
  | StringSchema minLength allowed presence =>
      match value with
      | None => negb presence
      | Some (JStr text) =>
          match allowed with
          | Some values => includes values text
          | None =>
              negb (String.eqb text "")
              && match minLength with
                 | Some n => (n <=? String.length text)%nat
                 | None => true
                 end
          end
      | Some _ => false
      end
  | ObjectSchema keys presence =>
      match value with
      | None => negb presence
      | Some (JObj fields) =>
          forallb (fun field => includes (map fst keys) field.1) fields
          && (fix children (keys : list (String.string * Schema)) : bool :=
                match keys with
                | [] => true
                | (key, child) :: rest =>
                    accepts child (property key fields) && children rest
                end) keys
      | Some _ => false
      end
  end.

Definition string : Schema := StringSchema None None false.
End Joi.

Definition schema : Joi.Schema :=
  Joi.object
    [ ("name", Joi.required (Joi.min 3 Joi.string));
      ("options", Joi.object [ ("url", Joi.required Joi.string) ]);
      ("type", Joi.required (Joi.valid ["postgresql"] Joi.string)) ].

(** ** A worked table

    The table [users] of the end-to-end example of the specification: [id]
    (integer, primary key), [email] (character varying) and [manager_id]
    (integer, referencing [users.id]). *)
Module Users.
Definition column (type : string) : ColumnInfo :=
  {| type := type; nullable := false; maxLength := None;
     defaultValue := None |}.

Definition inspected (table name type : string) (pk : bool)
  : InspectedColumn.t :=
  {| InspectedColumn.name := name;
     InspectedColumn.table := table;
     InspectedColumn.data_type := type;
     InspectedColumn.is_primary_key := pk |}.

Definition manager_fk : InspectedForeignKey.t :=
  {| InspectedForeignKey.constraint_name := Some "users_manager_id_fkey";
     InspectedForeignKey.table := "users";
     InspectedForeignKey.column := "manager_id";
     InspectedForeignKey.foreign_key_table := "users";
     InspectedForeignKey.foreign_key_column := "id";
     InspectedForeignKey.foreign_key_schema := Some "public";
     InspectedForeignKey.on_update := Some "NO ACTION";
     InspectedForeignKey.on_delete := Some "NO ACTION" |}.

(** A second table, [memberships], keyed by the pair (user_id, team_id),
    and a third one, [audit_log], with no primary key at all. *)
Definition service : QueryService :=
  {| client :=
       {| client_columnInfo := fun table =>
            if String.eqb table "users" then
              [ ("id", column "integer");
                ("email", column "character varying");
                ("manager_id", column "integer") ]
            else if String.eqb table "memberships" then
              [ ("user_id", column "integer");
                ("team_id", column "integer");
                ("role", column "text") ]
            else if String.eqb table "audit_log" then
              [ ("message", column "text") ]
            else [];
          client_rows := fun _ => [];
          client_affected := fun _ => 0 |};
     inspector :=
       {| inspector_columnInfo := fun table =>
            if String.eqb table "users" then
              [ inspected "users" "id" "integer" true;
                inspected "users" "email" "character varying" false;
                inspected "users" "manager_id" "integer" false ]
            else if String.eqb table "memberships" then
              [ inspected "memberships" "user_id" "integer" true;
                inspected "memberships" "team_id" "integer" true;
                inspected "memberships" "role" "text" false ]
            else if String.eqb table "audit_log" then
              [ inspected "audit_log" "message" "text" false ]
            else [];
          inspector_foreignKeys := [ manager_fk ] |} |}.

(** Stand-ins for the collaborators that [Section Columns] takes as
    parameters; no general statement below depends on them. *)
Definition humanize (s : string) : string := s.
Definition idColumns : list string := [ "id" ].
Definition getBaseOptions : Options :=
  {[ "required" := JBool false;
     "visibility" := JArr [ JStr "index"; JStr "show"; JStr "edit" ] ]}.
Definition loadModule (path : string) : Imported :=
  if String.eqb path "@/plugins/fields/Text/fieldOptions"
  then Loaded (Some {[ "displayAs" := JStr "text";
                       "link" := JObj [ ("openNewTab", JBool false) ] ]})
  else Rejected "MODULE_NOT_FOUND".

Definition getColumns := getColumns humanize idColumns getBaseOptions
                           loadModule service.

(** Stored configurations used in the examples. *)
Definition configured (fieldType : option string)
    (baseOptions fieldOptions : option Options) (label : option string)
  : StoredColumn.t :=
  {| StoredColumn.fieldType := fieldType;
     StoredColumn.baseOptions := baseOptions;
     StoredColumn.fieldOptions := fieldOptions;
     StoredColumn.label := label |}.

(** [manager_id] declared as a plain number. *)
Definition manager_as_number : gmap string StoredColumn.t :=
  {[ "manager_id" := configured (Some "Number") None None None ]}.

(** [email] given a display label. *)
Definition email_labelled (label : string) : gmap string StoredColumn.t :=
  {[ "email" := configured None None None (Some label) ]}.

(** [role] of [memberships] declared as a select. *)
Definition role_as_select : gmap string StoredColumn.t :=
  {[ "role" := configured (Some "Select") None None None ]}.

(** [email] made required, with a [link] option of its own. *)
Definition email_options : gmap string StoredColumn.t :=
  {[ "email" :=
       configured None
         (Some {[ "required" := JBool true ]})
         (Some {[ "link" := JObj [ ("rel", JStr "nofollow") ] ]})
         None ]}.

(** What the examples read off a returned column. *)
Definition fieldTypes (m : M (list Column.t))
  : option (list (string * string)) :=
  map (fun c => (Column.name c, Column.fieldType c)) <$> returned m.

Definition primaryKeys (m : M (list Column.t))
  : option (list (string * bool)) :=
  map (fun c => (Column.name c, Column.primaryKey c)) <$> returned m.

Definition column_named (name : string) (m : M (list Column.t))
  : option Column.t :=
  returned m ≫= List.find (fun c => String.eqb (Column.name c) name).
End Users.

(** Data source definitions submitted for validation. *)
Module Submitted.
Definition mysql_source : Json :=
  JObj [ ("name", JStr "shop");
         ("type", JStr "mysql");
         ("options", JObj [ ("url", JStr "mysql://localhost/shop") ]) ].

Definition postgresql_source : Json :=
  JObj [ ("name", JStr "shop");
         ("type", JStr "postgresql");
         ("options", JObj [ ("url", JStr "postgresql://localhost/shop") ]) ].

Definition without_options : Json :=
  JObj [ ("name", JStr "shop"); ("type", JStr "postgresql") ].
End Submitted.

(** * Further parts of the sources *)

(** ** Credentials

    [getParsedCredentials] of the abstract service and [getCredentials] of
    the MySQL service. *)

(** Truthiness of a value that may be [undefined]. *)
Definition truthyValue (v : option Json) : bool :=
  match v with
  | None => false
  | Some JNull => false
  | Some (JBool b) => b
  | Some (JNum n) => negb (n =? 0)
  | Some (JStr s) => negb (String.eqb s "")
  | Some (JArr _) => true
  | Some (JObj _) => true
  end.

(** [value.key]: only an object has the properties that the code reads. *)
Definition member (key : string) (value : Json) : option Json :=
  match value with
  | JObj fields => property key fields
  | _ => None
  end.

(** The part of the prisma [DataSource] row that the service reads. *)
Record DataSource : Type := {
  encryptedCredentials : option string;
}.

Section Credentials.
(** [decrypt] of [lib/crypto], which is not among the sources, and
    [JSON.parse], with [None] for the [SyntaxError] it throws. *)
Variable decrypt : string -> option string.
Variable JSON_parse : string -> option Json.

Definition getParsedCredentials (dataSource : option DataSource)
  : Outcome Json :=
  if match dataSource with
     | None => true
     | Some source => negb (truthy (encryptedCredentials source))
     end
  then Thrown "No data source provided."
  else
    let credentialsAsAString :=
      decrypt (default "" (dataSource ≫= encryptedCredentials)) in
    if negb (truthy credentialsAsAString)
    then Thrown "No credentials on record."
    else
      match JSON_parse (default "" credentialsAsAString) with
      | Some credentials => Returned credentials
      | None => Thrown "Failed to parse encrypted credentials"
      end.

(** [getCredentials] of [mysql/QueryService.ts]. *)
Definition getCredentials (dataSource : option DataSource) : Outcome Json :=
  match getParsedCredentials dataSource with
  | Returned credentials =>
      if negb (truthyValue (Some credentials))
         || negb (truthyValue (member "host" credentials))
      then Thrown "No credentials on record."
      else Returned credentials
  | Thrown message => Thrown message
  end.
End Credentials.

(** ** The MySQL field types *)

Module MySQL.
Section FieldTypes.
Variable idColumns : list string.

(** [getFieldOptionsFromColumnInfo]: the [fieldType] of the object it
    returns. A [case] group that ends in [break] leaves the [switch]; the
    second [case "enum"] stands where the source has it. *)
Definition getFieldOptionsFromColumnInfo (column : ColumnWithBaseOptions.t)
  : string :=
  let fieldType := "Text" in
  let name := ColumnWithBaseOptions.name column in
  let number := if includes idColumns name then "Id" else "Number" in
  let fieldType :=
    switch (type (ColumnWithBaseOptions.dataSourceInfo column))
      [ ("char", "Text");
        ("varchar", "Text");
        ("binary", "Text");
        ("varbinary", "Text");
        ("tinyblob", "Text");
        ("tinytext", "Text");
        ("enum", "Text");
        ("set", "Text");
        ("enum", "Select");
        ("tinyint", "Boolean");
        ("bit", "Boolean");
        ("date", "DateTime");
        ("datetime", "DateTime");
        ("timestamp", "DateTime");
        ("time", "DateTime");
        ("year", "DateTime");
        ("json", "Json");
        ("blob", "Textarea");
        ("text", "Textarea");
        ("mediumblob", "Textarea");
        ("mediumtext", "Textarea");
        ("longblob", "Textarea");
        ("longtext", "Textarea");
        ("int", number);
        ("smallint", number);
        ("mediumint", number);
        ("bigint", number);
        ("float", number);
        ("double", number);
        ("decimal", number);
        ("numeric", number) ]
      fieldType in
  let fieldType :=
    if bool_decide (is_Some (ColumnWithBaseOptions.foreignKeyInfo column))
    then "Association"
    else fieldType in
  fieldType.
End FieldTypes.
End MySQL.

(** ** parseInt *)

(** The white space that [parseInt] skips, within ASCII. *)
Definition isWhiteSpace (c : Ascii.ascii) : bool :=
  let n := Z.of_nat (Ascii.nat_of_ascii c) in
  ((9 <=? n) && (n <=? 13)) || (n =? 32).

Fixpoint trimStart (s : string) : string :=
  match s with
  | String c rest => if isWhiteSpace c then trimStart rest else s
  | EmptyString => s
  end.

(** The value of a character as a digit: [0-9], then [a-z] or [A-Z] from
    ten on. *)
Definition digitValue (c : Ascii.ascii) : option Z :=
  let n := Z.of_nat (Ascii.nat_of_ascii c) in
  if (48 <=? n) && (n <=? 57) then Some (n - 48)
  else if (97 <=? n) && (n <=? 122) then Some (n - 87)
  else if (65 <=? n) && (n <=? 90) then Some (n - 55)
  else None.

(** The number written by the longest prefix of digits below the radix;
    [acc] is the number read so far, [None] when no digit was read. *)
Fixpoint digitsPrefix (radix : Z) (s : string) (acc : option Z) : option Z :=
  match s with
  | String c rest =>
      match digitValue c with
      | Some d =>
          if d <? radix
          then digitsPrefix radix rest (Some (default 0 acc * radix + d))
          else acc
      | None => acc
      end
  | EmptyString => acc
  end.

(** [parseInt(text, radix)], with radix [0] for a call without one and
    [None] for [NaN]. The model is exact where JavaScript numbers are: on
    values below 2^53. *)
Definition parseInt (text : string) (radix : Z) : option Z :=
  let input := trimStart text in
  let sign :=
    match input with String "-"%char _ => -1 | _ => 1 end in
  let input :=
    match input with
    | String "-"%char rest => rest
    | String "+"%char rest => rest
    | _ => input
    end in
  if negb (radix =? 0) && ((radix <? 2) || (36 <? radix)) then None
  else
    let stripPrefix := (radix =? 0) || (radix =? 16) in
    let R := if radix =? 0 then 10 else radix in
    let '(input, R) :=
      match input with
      | String "0"%char (String "x"%char rest) =>
          if stripPrefix then (rest, 16) else (input, R)
      | String "0"%char (String "X"%char rest) =>
          if stripPrefix then (rest, 16) else (input, R)
      | _ => (input, R)
      end in
    Z.mul sign <$> digitsPrefix R input None.

(** [n || fallback] on the result of [parseInt]: [NaN] and zero are
    falsy. *)
Definition or_number (n : option Z) (fallback : Z) : Z :=
  match n with
  | Some v => if v =? 0 then fallback else v
  | None => fallback
  end.

(** ** Table columns for the grid ([src/unnamed/part_001]) *)

Definition DEFAULT_COLUMN_WIDTH : Z := 150.
Definition MIN_COLUMN_WIDTH : Z := 30.
Definition MAX_COLUMN_WIDTH : Z := 800.

(** The react-table column that [parseColumns] builds. *)
Record ReactTableColumn : Type := {
  Header : string;
  accessor : string;
  meta : Column.t;
  width : Z;
  minWidth : Z;
  maxWidth : Z;
}.

Section Grid.
(** [LOCAL_STORAGE_PREFIX] of [lib/constants], which is not among the
    sources. *)
Variable LOCAL_STORAGE_PREFIX : string.

Definition localStorageColumnWidthKey (dataSourceId tableName columnName : string)
  : string :=
  LOCAL_STORAGE_PREFIX +:+ ":data-source-" +:+ dataSourceId +:+ "table-"
  +:+ tableName +:+ "-column-" +:+ columnName.

(** [localStorage] is the content of [window.localStorage], or [None] where
    reading it throws (no [window]); [getItem] gives [null] for a missing
    key, which [parseInt] reads as the text [null]. *)
Definition parseColumns (localStorage : option (gmap string string))
    (columns : list Column.t) (dataSourceId tableName : string)
  : list ReactTableColumn :=
  map (fun column =>
         let columnName := Column.name column in
         let localStorageKey :=
           localStorageColumnWidthKey dataSourceId tableName columnName in
         let columnWidth :=
           match localStorage with
           | Some items =>
               or_number
                 (parseInt (default "null" (items !! localStorageKey)) 0)
                 DEFAULT_COLUMN_WIDTH
           | None => DEFAULT_COLUMN_WIDTH
           end in
         {| Header := Column.name column;
            accessor := Column.name column;
            meta := column;
            width := columnWidth;
            minWidth := MIN_COLUMN_WIDTH;
            maxWidth := MAX_COLUMN_WIDTH |})
      columns.
End Grid.

(** ** The widget values endpoint
    ([src/pages/api/dashboards/[dashboardId]/widgets/values.ts]) *)

(** The part of a dashboard row that the handler reads. Widgets, widget
    values and data source rows are plain values. *)
Record Dashboard : Type := {
  dataSourceId : Z;
  widgets : list Json;
}.

(** The prisma client, as the answers it gives; the dashboard is looked up
    by the number [parseInt] made of the id, [None] when it made none. *)
Record Prisma : Type := {
  dashboard_findFirst : option Z -> option Dashboard;
  dataSource_findFirst : Z -> option Json;
}.

Record NextApiRequest : Type := {
  method : string;
  query_dashboardId : option string;
}.

(** What the handler awaited, in order. *)
Inductive Lookup : Type :=
| FindDashboard (id : option Z)
| FindDataSource (id : Z)
| ValueForWidget (widget : Json).

(** What the handler answered: [res.status(code).send(text)], or
    [res.json(ApiResponse.withData(data))]. *)
Inductive Reply : Type :=
| Send (status : Z) (text : string)
| JsonWithData (data : list Json).

Section WidgetValues.
(** [getValueForWidget] of [features/dashboards/server-helpers], which is
    not among the sources. *)
Variable getValueForWidget : Json -> Json -> Json.
Variable prisma : Prisma.

Definition handleGET (req : NextApiRequest) : Reply * list Lookup :=
  let id := parseInt (default "undefined" (query_dashboardId req)) 10 in
  match dashboard_findFirst prisma id with
  | None => (Send 404 "", [FindDashboard id])
  | Some dashboard =>
      match dataSource_findFirst prisma (dataSourceId dashboard) with
      | None =>
          (Send 404 "",
           [FindDashboard id; FindDataSource (dataSourceId dashboard)])
      | Some dataSource =>
          let '(response, awaited) :=
            foldl (fun '(response, awaited) widget =>
                     (response ++ [getValueForWidget widget dataSource],
                      awaited ++ [ValueForWidget widget]))
                  ([], [FindDashboard id;
                        FindDataSource (dataSourceId dashboard)])
                  (widgets dashboard) in
          (JsonWithData response, awaited)
      end
  end.

Definition handler (req : NextApiRequest) : Reply * list Lookup :=
  switch (method req)
    [ ("GET", handleGET req) ]
    (Send 404 "", []).
End WidgetValues.

(** ** Views of a query and of a log *)

Definition isWhere (s : Statement) : bool :=
  match s with Where _ _ _ => true | _ => false end.

Definition isOrderBy (s : Statement) : bool :=
  match s with OrderBy _ _ => true | _ => false end.

(** The where clauses of a query, in the order they were added. *)
Definition whereClauses (q : QueryBuilder) : list Statement :=
  List.filter isWhere (q_statements q).

(** The paths a run imported, and the warnings it logged, in order. *)
Definition imports (log : list Event) : list string :=
  omap (fun e => match e with Import path => Some path | _ => None end) log.

Definition warnings (log : list Event) : list string :=
  omap (fun e => match e with Warn msg => Some msg | _ => None end) log.

(** The field types that inference from the column info can give. *)
Definition inferable : list string :=
  [ "Text"; "Boolean"; "DateTime"; "Json"; "Textarea"; "Id"; "Number";
    "Association" ].

(** The native types that [getFieldTypeFromColumnInfo] names. *)
Definition nativeTypes : list string :=
  [ "character"; "character varying"; "interval"; "name"; "boolean"; "bit";
    "timestamp without time zone"; "timestamp with time zone";
    "time without time zone"; "time with time zone"; "date"; "json";
    "jsonb"; "text"; "xml"; "bytea"; "integer"; "bigint"; "numeric";
    "smallint"; "oid"; "uuid"; "real"; "double precision"; "money" ].

(** The names of the members of [Object.prototype]: on a plain object
    that has no property of its own by one of these names, a lookup by it
    finds the inherited member. *)
Definition objectPrototypeNames : list string :=
  [ "constructor"; "hasOwnProperty"; "isPrototypeOf"; "propertyIsEnumerable";
    "toLocaleString"; "toString"; "valueOf"; "__proto__";
    "__defineGetter__"; "__defineSetter__"; "__lookupGetter__";
    "__lookupSetter__" ].

(** The native types that both engines name. *)
Definition sharedTypes : list string :=
  [ "bit"; "date"; "json"; "text"; "bigint"; "numeric"; "smallint" ].

Section Loading.
Variable loadModule : string -> Imported.

(** What loading the options module of one column leaves in the log. *)
Definition loadingOf (name fieldType : string) : list Event :=
  Import (fieldOptionsPath fieldType)
  :: match loadModule (fieldOptionsPath fieldType) with
     | Loaded _ => []
     | Rejected code =>
         if negb (String.eqb code "MODULE_NOT_FOUND")
         then [Warn ("Can't get the field options for '" +:+ name
                     +:+ "' field.")]
         else []
     end.

(** The warning that loading the options module of a column logs, if
    any. *)
Definition warningOf (name fieldType : string) : option string :=
  match loadModule (fieldOptionsPath fieldType) with
  | Loaded _ => None
  | Rejected code =>
      if String.eqb code "MODULE_NOT_FOUND" then None
      else Some ("Can't get the field options for '" +:+ name +:+ "' field.")
  end.

End Loading.

(** ** A worked dashboard *)

Module Board.
(** Dashboard 1 has two widgets and the data source 7, which exists;
    dashboard 2 points at a data source that does not. *)
Definition prisma : Prisma :=
  {| dashboard_findFirst := fun id =>
       match id with
       | Some 1 =>
           Some {| dataSourceId := 7;
                   widgets := [ JStr "revenue"; JStr "signups" ] |}
       | Some 2 => Some {| dataSourceId := 9; widgets := [ JStr "churn" ] |}
       | _ => None
       end;
     dataSource_findFirst := fun id =>
       if id =? 7 then Some (JObj [ ("type", JStr "postgresql") ])
       else None |}.

(** A stand-in for [getValueForWidget]. *)
Definition getValueForWidget (widget dataSource : Json) : Json :=
  JObj [ ("widget", widget); ("source", dataSource) ].

Definition request (method id : string) : NextApiRequest :=
  {| method := method; query_dashboardId := Some id |}.

Definition handler := handler getValueForWidget prisma.
End Board.

(** * Properties *)

(** ** The monad *)

Lemma bind_ret_l {A B : Type} (a : A) (k : A -> M B) : bind (ret a) k = k a.
Proof. unfold bind, ret. destruct (k a) as [out after]. reflexivity. Qed.

Lemma bind_await {A B : Type} (e : Event) (a : A) (k : A -> M B) :
  bind (await e a) k = ((k a).1, e :: (k a).2).
Proof. unfold bind, await. destruct (k a) as [out after]. reflexivity. Qed.

Lemma bind_throw {A B : Type} (message : string) (k : A -> M B) :
  bind (throw message) k = throw message.
Proof. reflexivity. Qed.

Lemma bind_returned {A B : Type} (m : M A) (k : A -> M B) (a : A) :
  outcome m = Returned a ->
  bind m k = (outcome (k a), events m ++ events (k a)).
Proof.
  destruct m as [o before]. unfold outcome, events. simpl. intros ->.
  destruct (k a) as [out after]. reflexivity.
Qed.

Lemma queries_app (l1 l2 : list Event) :
  queries (l1 ++ l2) = queries l1 ++ queries l2.
Proof. unfold queries. apply omap_app. Qed.

(** ** Filter translation *)

Example getValue_contains :
  getValue {| columnName := "name"; condition := "contains"; value := "an" |}
  = "%an%".
Proof. reflexivity. Qed.

Lemma foldl_addFilterToQuery (filters : list IFilter) (query : QueryBuilder) :
  foldl addFilterToQuery query filters
  = {| q_method := q_method query; q_table := q_table query;
       q_limit := q_limit query; q_offset := q_offset query;
       q_statements := q_statements query ++ map compiled filters;
       q_data := q_data query; q_returning := q_returning query |}.
Proof.
  revert query. induction filters as [|f fs IH]; intros query; simpl.
  - rewrite app_nil_r. destruct query; reflexivity.
  - rewrite IH. simpl. rewrite <- app_assoc. reflexivity.
Qed.

(** The rows of the table of section 4.4 that the code reproduces: every
    condition except [starts_with] and [ends_with]. *)
Lemma condition_table_verbatim_rows (column text : string) :
  let compile c :=
    compiled {| columnName := column; condition := c; value := text |} in
  compile "is" = Where column "=" text
  /\ compile "is_not" = Where column "!=" text
  /\ compile "contains" = Where column "LIKE" ("%" +:+ text +:+ "%")
  /\ compile "not_contains" = Where column "NOT LIKE" ("%" +:+ text +:+ "%")
  /\ compile "is_empty" = Where column "LIKE" ""
  /\ compile "is_not_empty" = Where column "LIKE" ""
  /\ compile ">" = Where column ">" text
  /\ compile ">=" = Where column ">=" text
  /\ compile "<" = Where column "<" text
  /\ compile "<=" = Where column "<=" text.
Proof. repeat split. Qed.

Lemma switch_default {A : Type} (s : string) (cases : list (string * A))
    (d : A) :
  s ∉ cases.*1 -> switch s cases d = d.
Proof.
  induction cases as [|[label body] rest IH]; simpl; intros Hnot; [done|].
  destruct (String.eqb_spec s label) as [->|Hne].
  - exfalso. apply Hnot. left.
  - apply IH. intros Hin. apply Hnot. right. exact Hin.
Qed.

(** A condition outside the enumeration compiles to [=] with the value
    verbatim. *)
Lemma condition_outside_enumeration (column c text : string) :
  c ∉ enumeration ->
  compiled {| columnName := column; condition := c; value := text |}
  = Where column "=" text.
Proof.
  intros Hout. unfold compiled, getCondition, getValue.
  rewrite !switch_default; [reflexivity| |];
    intros Hin; apply Hout; unfold enumeration;
    cbn [condition fmap list_fmap fst] in Hin;
    rewrite !elem_of_cons, elem_of_nil in Hin;
    rewrite !elem_of_cons, elem_of_nil; tauto.
Qed.

(** ** getRecords *)

Lemma paginated_isNumber (limit offset : option Json) :
  isNumber limit && isNumber offset
  = bool_decide (is_Some (paginated limit offset)).
Proof. destruct limit as [[]|], offset as [[]|]; reflexivity. Qed.

Lemma negativeOffset_false (limit offset : option Json) :
  (forall l o, limit = Some (JNum l) -> offset = Some (JNum o) -> 0 <= o) ->
  negativeOffset limit offset = false.
Proof.
  intros Hoffset. unfold negativeOffset.
  destruct limit as [[| |l| | |]|], offset as [[| |o| | |]|];
    try reflexivity.
  simpl. apply Z.ltb_ge. apply (Hoffset l o); reflexivity.
Qed.

(** What [getRecords] does: it is rejected at a negative offset, and
    otherwise sends one query, here field by field. *)
Lemma getRecords_run (this : QueryService) (tableName : string)
    (limit offset : option Json) (filters : option (list IFilter))
    (orderBy : option string) (orderDirection : string)
    (select : list string) :
  let query :=
    {| q_method := MSelect; q_table := Some tableName;
       q_limit := fst <$> paginated limit offset;
       q_offset := snd <$> paginated limit offset;
       q_statements :=
         (if paginated limit offset is Some _ then [Columns select] else [])
         ++ map compiled (default [] filters)
         ++ (if truthy orderBy
             then [OrderBy (tableName +:+ "." +:+ default "" orderBy)
                           orderDirection]
             else []);
       q_data := None; q_returning := None |} in
  getRecords this tableName limit offset filters orderBy orderDirection select
  = if negativeOffset limit offset
    then (Thrown "A non-negative integer must be provided to offset.", [])
    else (Returned (client_rows (client this) query), [Run query]).
Proof.
  unfold getRecords.
  set (m1 := match limit with Some (JNum l) => _ | _ => _ end).
  assert (Hm1 : m1 =
    if negativeOffset limit offset
    then throw "A non-negative integer must be provided to offset."
    else
      ret {| q_method := MSelect; q_table := Some tableName;
             q_limit := fst <$> paginated limit offset;
             q_offset := snd <$> paginated limit offset;
             q_statements :=
               if paginated limit offset is Some _ then [Columns select]
               else [];
             q_data := None; q_returning := None |}).
  { subst m1. unfold negativeOffset.
    destruct limit as [[| |l| | |]|], offset as [[| |o| | |]|];
      try reflexivity.
    simpl. unfold Knex.offset. destruct (o <? 0); reflexivity. }
  rewrite Hm1. clear m1 Hm1.
  destruct (negativeOffset limit offset); [reflexivity|].
  rewrite bind_ret_l.
  assert (Hfold : forall q,
    match filters with Some fs => foldl addFilterToQuery q fs | None => q end
    = {| q_method := q_method q; q_table := q_table q;
         q_limit := q_limit q; q_offset := q_offset q;
         q_statements := q_statements q ++ map compiled (default [] filters);
         q_data := q_data q; q_returning := q_returning q |}).
  { intros q. destruct filters as [fs|]; simpl.
    - apply foldl_addFilterToQuery.
    - rewrite app_nil_r. destruct q; reflexivity. }
  rewrite Hfold. clear Hfold. cbn [q_method q_table q_limit q_offset
    q_statements q_data q_returning].
  destruct (truthy orderBy); cbn zeta.
  - unfold Knex.orderBy, Knex.push, await. simpl.
    rewrite <- app_assoc. reflexivity.
  - rewrite app_nil_r. reflexivity.
Qed.


(** C2. At a [starts_with] filter the code puts the wildcard before the
    value, and at an [ends_with] filter after it: the query [getRecords]
    sends for the two filters on a value carries the patterns the table of
    section 4.4 assigns to the other condition. For the value [an] these are
    [%an] and [an%], against the [an%] and [%an] of the table. *)
Theorem getRecords_starts_with_ends_with (this : QueryService)
    (tableName column text : string) :
  exists query,
    events (getRecords this tableName None None
              (Some [ {| columnName := column;
                         condition := StringFilterConditions.starts_with;
                         value := text |};
                      {| columnName := column;
                         condition := StringFilterConditions.ends_with;
                         value := text |} ])
              None "asc" []) = [Run query]
    /\ q_statements query
       = [ Where column "LIKE" ("%" +:+ text);
           Where column "LIKE" (text +:+ "%") ]
    /\ "%" +:+ "an" <> "an" +:+ "%".
Proof.
  rewrite getRecords_run. cbn [negativeOffset paginated]. cbn zeta.
  eexists. split; [reflexivity|].
  split; [reflexivity|]. discriminate.
Qed.

(** ** Operations keyed by the primary key *)

Lemma getPrimaryKeyColumn_run (this : QueryService) (tableName : string) :
  getPrimaryKeyColumn this tableName
  = (Returned
       (InspectedColumn.name
        <$> List.find (fun c => InspectedColumn.is_primary_key c)
              (inspector_columnInfo (inspector this) tableName)),
     [InspectColumns tableName]).
Proof. reflexivity. Qed.

(** With a primary key, [getRecord] and [deleteRecords] go on to send their
    one query, keyed by it. *)
Lemma primary_key_operations_run (this : QueryService)
    (tableName recordId : string) (select : list string)
    (recordIds : list Z) (key : InspectedColumn.t) :
  List.find (fun c => InspectedColumn.is_primary_key c)
    (inspector_columnInfo (inspector this) tableName) = Some key ->
  InspectedColumn.name key <> "" ->
  queries (events (getRecord this tableName recordId select))
  = [ Knex.set_table tableName
        (Knex.where_eq (InspectedColumn.name key) recordId
           (Knex.start_select select)) ]
  /\ queries (events (deleteRecords this tableName recordIds))
     = [ Knex.whereIn (InspectedColumn.name key) recordIds
           (Knex.delete (Knex.table tableName)) ].
Proof.
  intros Hkey Hname. unfold getRecord, deleteRecords.
  rewrite getPrimaryKeyColumn_run, Hkey.
  assert (Htruthy : truthy (Some (InspectedColumn.name key)) = true).
  { simpl. apply negb_true_iff, String.eqb_neq. exact Hname. }
  split.
  - rewrite bind_returned with (a := Some (InspectedColumn.name key))
      by reflexivity.
    rewrite Htruthy. reflexivity.
  - rewrite bind_returned with (a := Some (InspectedColumn.name key))
      by reflexivity.
    rewrite Htruthy. reflexivity.
Qed.

(** C8. On a table where the inspector flags no column as primary key,
    [getRecord], [createRecord], [updateRecord], [deleteRecord] and
    [deleteRecords] each throw the missing-primary-key error, and the only
    call they awaited is the inspector's column listing: no query reached
    the knex client. *)
Theorem no_primary_key_fails_before_any_query (this : QueryService)
    (tableName recordId : string) (select : list string) (data : Json)
    (recordIds : list Z) :
  List.find (fun c => InspectedColumn.is_primary_key c)
    (inspector_columnInfo (inspector this) tableName) = None ->
  let failure {A : Type} : M A :=
    (Thrown ("Can't find a primary key for table " +:+ tableName +:+ "."),
     [InspectColumns tableName]) in
  getRecord this tableName recordId select = failure
  /\ createRecord this tableName data = failure
  /\ updateRecord this tableName recordId data = failure
  /\ deleteRecord this tableName recordId = failure
  /\ deleteRecords this tableName recordIds = failure
  /\ queries [InspectColumns tableName] = [].
Proof.
  intros Hnone. cbn zeta.
  unfold getRecord, createRecord, updateRecord, deleteRecord, deleteRecords.
  rewrite getPrimaryKeyColumn_run, Hnone. repeat split.
Qed.

(** C8 at the table [audit_log], which has no primary key. *)
Lemma no_primary_key_fails_witness :
  getRecord Users.service "audit_log" "7" ["message"]
  = (Thrown "Can't find a primary key for table audit_log.",
     [InspectColumns "audit_log"])
  /\ deleteRecords Users.service "audit_log" [1; 2; 3]
     = (Thrown "Can't find a primary key for table audit_log.",
        [InspectColumns "audit_log"]).
Proof.
  destruct (no_primary_key_fails_before_any_query Users.service "audit_log"
              "7" ["message"] JNull [1; 2; 3] eq_refl)
    as (Hget & _ & _ & _ & Hdel & _).
  split; [exact Hget | exact Hdel].
Defined.

(** ** Object.fromEntries *)

Lemma fromEntries_snoc {V : Type} (entries : list (string * V)) (k : string)
    (v : V) :
  fromEntries (entries ++ [(k, v)]) = <[ k := v ]> (fromEntries entries).
Proof. unfold fromEntries. rewrite foldl_snoc. reflexivity. Qed.

Lemma fromEntries_lookup_None {V : Type} (entries : list (string * V))
    (k : string) :
  k ∉ entries.*1 -> fromEntries entries !! k = None.
Proof.
  induction entries as [|[k' v'] entries IH] using rev_ind; intros Hnot.
  - apply lookup_empty.
  - rewrite fromEntries_snoc. rewrite fmap_app in Hnot.
    rewrite lookup_insert_ne.
    + apply IH. intros Hin. apply Hnot. apply elem_of_app. left. exact Hin.
    + intros ->. apply Hnot. apply elem_of_app. right. simpl.
      apply list_elem_of_singleton. reflexivity.
Qed.

(** Entries computed from the items of a list whose keys do not repeat:
    each item finds its own entry, or none when it produced none. *)
Lemma fromEntries_omap_lookup {A V : Type} (entry : A -> option (string * V))
    (key : A -> string) (items : list A) :
  (forall a k v, entry a = Some (k, v) -> k = key a) ->
  NoDup (key <$> items) ->
  forall a, a ∈ items ->
    fromEntries (omap entry items) !! key a = snd <$> entry a.
Proof.
  intros Hkey. induction items as [|x items IH] using rev_ind;
    intros Hnodup a Hin.
  - apply elem_of_nil in Hin. destruct Hin.
  - rewrite fmap_app in Hnodup. apply NoDup_app in Hnodup as (Hnd & Hfresh & _).
    rewrite omap_app. simpl.
    assert (Hkeys : forall k, k ∈ (omap entry items).*1 -> k ∈ key <$> items).
    { intros k Hk. apply list_elem_of_fmap in Hk as ([k' v'] & -> & Hk).
      apply list_elem_of_omap in Hk as (b & Hb & Heb).
      apply Hkey in Heb. simpl. subst k'.
      apply list_elem_of_fmap. exists b. split; [reflexivity | exact Hb]. }
    assert (Hx : forall b, b ∈ items -> key b <> key x).
    { intros b Hb Heq. apply (Hfresh (key b)).
      - apply list_elem_of_fmap. exists b. split; [reflexivity | exact Hb].
      - rewrite Heq. simpl. apply list_elem_of_singleton. reflexivity. }
    apply elem_of_app in Hin as [Hin|Hin].
    + destruct (entry x) as [[k v]|] eqn:Hex.
      * rewrite fromEntries_snoc. apply Hkey in Hex. subst k.
        rewrite lookup_insert_ne; [apply IH; assumption|].
        intros Heq. exact (Hx a Hin (eq_sym Heq)).
      * rewrite app_nil_r. apply IH; assumption.
    + apply list_elem_of_singleton in Hin. subst a.
      destruct (entry x) as [[k v]|] eqn:Hex.
      * rewrite fromEntries_snoc. apply Hkey in Hex. subst k.
        rewrite lookup_insert_eq. reflexivity.
      * rewrite app_nil_r. apply fromEntries_lookup_None.
        intros Hk. apply Hkeys in Hk.
        apply list_elem_of_fmap in Hk as (b & Heq & Hb).
        exact (Hx b Hb (eq_sym Heq)).
Qed.

(** Some entry with the key makes the lookup succeed, repeated keys or
    not. *)
Lemma fromEntries_lookup_is_Some {V : Type} (entries : list (string * V))
    (k : string) :
  is_Some (fromEntries entries !! k) <-> k ∈ entries.*1.
Proof.
  induction entries as [|[k' v'] entries IH] using rev_ind.
  - unfold fromEntries. simpl. rewrite lookup_empty. split.
    + intros [v Hv]. discriminate Hv.
    + intros Hin. apply elem_of_nil in Hin. destruct Hin.
  - rewrite fromEntries_snoc, fmap_app, elem_of_app. simpl.
    rewrite list_elem_of_singleton.
    destruct (decide (k' = k)) as [->|Hne].
    + rewrite lookup_insert_eq. split; [right; reflexivity | eauto].
    + rewrite lookup_insert_ne by exact Hne. rewrite IH.
      split; [intros; left; assumption | intros [?|?]; congruence].
Qed.

(** ** getColumns *)

Lemma outcome_bind {A B : Type} (m : M A) (k : A -> M B) (a : A) :
  outcome m = Returned a -> outcome (bind m k) = outcome (k a).
Proof. intros Hm. rewrite (bind_returned m k a Hm). reflexivity. Qed.

Lemma forEachAsync_returned {A B : Type} (f : A -> M B) (g : A -> B)
    (items : list A) :
  (forall a, outcome (f a) = Returned (g a)) ->
  outcome (forEachAsync f items) = Returned (map g items).
Proof.
  intros Hf. induction items as [|a rest IH]; simpl; [reflexivity|].
  rewrite (outcome_bind _ _ (g a)) by apply Hf.
  rewrite (outcome_bind _ _ (map g rest)) by exact IH.
  reflexivity.
Qed.

Lemma omap_id_map {A B : Type} (f : A -> option B) (items : list A) :
  omap id (map f items) = omap f items.
Proof.
  induction items as [|a rest IH]; [reflexivity|].
  change (omap id (map f (a :: rest)))
    with (match f a with
          | Some b => b :: omap id (map f rest)
          | None => omap id (map f rest)
          end).
  rewrite IH. reflexivity.
Qed.

Lemma or_else_falsy (a : option string) (b : string) :
  truthy a = false -> or_else a b = b.
Proof.
  destruct a as [s|]; simpl; [|reflexivity].
  destruct (String.eqb s ""); [reflexivity | discriminate].
Qed.

Lemma or_else_truthy (s b : string) : s <> "" -> or_else (Some s) b = s.
Proof.
  intros Hne. simpl. destruct (String.eqb_spec s ""); [contradiction|].
  reflexivity.
Qed.

Section ColumnFacts.
Variable humanize : string -> string.
Variable idColumns : list string.
Variable getBaseOptions : Options.
Variable loadModule : string -> Imported.
Variable this : QueryService.

Local Abbreviation primaryKeyOf := (primaryKeyOf this).
Local Abbreviation foreignKeysOf := (foreignKeysOf this).
Local Abbreviation entryOf := (entryOf loadModule).
Local Abbreviation moduleDefault := (moduleDefault loadModule).
Local Abbreviation typed := (typed idColumns getBaseOptions this).
Local Abbreviation assembled :=
  (assembled humanize idColumns getBaseOptions this).

Lemma getDefaultFieldOptionsForFields_returned
    (columns : list ColumnWithFieldType.t) :
  outcome (getDefaultFieldOptionsForFields loadModule columns)
  = Returned (fromEntries (omap entryOf columns)).
Proof.
  unfold getDefaultFieldOptionsForFields.
  rewrite (outcome_bind _ _ (map entryOf columns)).
  - unfold outcome, ret. simpl. rewrite omap_id_map. reflexivity.
  - apply forEachAsync_returned. intros column.
    rewrite (outcome_bind _ _ (loadModule (fieldOptionsPath
                (ColumnWithFieldType.fieldType column)))) by reflexivity.
    unfold entryOf.
    destruct (loadModule _) as [d|code]; [reflexivity|].
    destruct (negb (String.eqb code "MODULE_NOT_FOUND")); reflexivity.
Qed.

(** [getColumns] always returns, and what it returns is the image of the
    client's column dictionary under the seven stages. *)
Lemma getColumns_returned (tableName : string)
    (storedColumns : option (gmap string StoredColumn.t)) :
  let rawColumns := client_columnInfo (client this) tableName in
  let fieldOptionsByFieldName :=
    fromEntries (omap entryOf (map (typed tableName storedColumns) rawColumns)) in
  outcome (getColumns humanize idColumns getBaseOptions loadModule this
             tableName storedColumns)
  = Returned (map (assembled tableName storedColumns fieldOptionsByFieldName)
                rawColumns).
Proof.
  cbn zeta. unfold getColumns.
  rewrite (outcome_bind _ _ (client_columnInfo (client this) tableName))
    by reflexivity.
  rewrite (outcome_bind _ _ (primaryKeyOf tableName)) by reflexivity.
  rewrite (outcome_bind _ _
             (default [] (returned (getForeignKeys this tableName))))
    by reflexivity.
  cbn zeta.
  rewrite (outcome_bind _ _ _ (getDefaultFieldOptionsForFields_returned _)).
  unfold outcome, ret. cbn [fst]. f_equal.
  rewrite !map_map. reflexivity.
Qed.
Section Assembled.
Variable tableName : string.
Variable storedColumns : option (gmap string StoredColumn.t).
Variable fieldOptionsByFieldName : gmap string (option Options).
Variable entry : string * ColumnInfo.

Let column : Column.t :=
  assembled tableName storedColumns fieldOptionsByFieldName entry.

Lemma assembled_name : Column.name column = entry.1.
Proof. subst column. destruct entry. reflexivity. Qed.

Lemma assembled_primaryKey :
  Column.primaryKey column = bool_decide (primaryKeyOf tableName = Some entry.1).
Proof. subst column. destruct entry. reflexivity. Qed.

Lemma assembled_foreignKeyInfo :
  Column.foreignKeyInfo column = foreignKeysOf tableName !! entry.1.
Proof. subst column. destruct entry. reflexivity. Qed.

Lemma assembled_fieldType :
  Column.fieldType column
  = or_else (storedColumnOf storedColumns entry.1 ≫= StoredColumn.fieldType)
      (getFieldTypeFromColumnInfo idColumns
         (withBaseOptions getBaseOptions
            (withForeignKeyInfo (foreignKeysOf tableName)
               (withSourceInfo (primaryKeyOf tableName) entry)))).
Proof. subst column. destruct entry. reflexivity. Qed.

Lemma assembled_label :
  Column.label column
  = if String.eqb entry.1 "id" then "ID" else humanize entry.1.
Proof. subst column. destruct entry. reflexivity. Qed.

Lemma assembled_baseOptions :
  Column.baseOptions column
  = spread getBaseOptions
      (default ∅ (storedColumnOf storedColumns entry.1
                  ≫= StoredColumn.baseOptions)).
Proof. subst column. destruct entry. reflexivity. Qed.

Lemma assembled_fieldOptions :
  Column.fieldOptions column
  = spread (match fieldOptionsByFieldName !! entry.1 with
            | Some (Some options) => options
            | _ => ∅
            end)
      (default ∅ (storedColumnOf storedColumns entry.1
                  ≫= StoredColumn.fieldOptions)).
Proof. subst column. destruct entry. reflexivity. Qed.
End Assembled.

(** A column carries [foreignKeyInfo] exactly when the inspector lists a
    constraint of the table that starts at it. *)
Lemma foreignKeyInfo_present (tableName name : string) :
  is_Some (foreignKeysOf tableName !! name)
  <-> exists fk, fk ∈ inspector_foreignKeys (inspector this)
                 /\ InspectedForeignKey.table fk = tableName
                 /\ InspectedForeignKey.column fk = name.
Proof.
  unfold foreignKeysOf. rewrite fromEntries_lookup_is_Some.
  unfold getForeignKeys, returned, outcome. simpl.
  rewrite <- list_fmap_compose. rewrite list_elem_of_fmap. split.
  - intros (fk & -> & Hin). apply list_elem_of_fmap in Hin as (raw & -> & Hin).
    apply list_elem_of_filter in Hin as [Htable Hin].
    exists raw. repeat split; assumption.
  - intros (raw & Hin & Htable & Hcolumn).
    eexists. split; [|apply list_elem_of_fmap_2, list_elem_of_filter;
                      split; [exact Htable | exact Hin]].
    simpl. symmetry. exact Hcolumn.
Qed.

(** C7. [getColumns] returns one column per entry of the column dictionary
    that the engine reports for the table, under the same names and in the
    same order, whatever the stored column configuration. *)
Theorem getColumns_keeps_the_engine_columns (tableName : string)
    (storedColumns : option (gmap string StoredColumn.t)) :
  exists columns,
    outcome (getColumns humanize idColumns getBaseOptions loadModule this
               tableName storedColumns) = Returned columns
    /\ map Column.name columns
       = map fst (client_columnInfo (client this) tableName)
    /\ length columns = length (client_columnInfo (client this) tableName).
Proof.
  eexists. split; [apply getColumns_returned|]. cbn zeta. split.
  - rewrite map_map. apply map_ext. intros e. apply assembled_name.
  - apply length_map.
Qed.

(** C1, as amended. A column that carries [foreignKeyInfo] and for which
    the stored configuration declares no field type comes out as
    [Association], whatever its native type. *)
Theorem foreign_key_without_stored_type_is_Association (tableName : string)
    (storedColumns : option (gmap string StoredColumn.t)) :
  exists columns,
    outcome (getColumns humanize idColumns getBaseOptions loadModule this
               tableName storedColumns) = Returned columns
    /\ forall column, column ∈ columns ->
         is_Some (Column.foreignKeyInfo column) ->
         truthy (storedColumnOf storedColumns (Column.name column)
                 ≫= StoredColumn.fieldType) = false ->
         Column.fieldType column = "Association".
Proof.
  eexists. split; [apply getColumns_returned|]. cbn zeta.
  intros column Hin Hfk Hstored.
  apply list_elem_of_fmap in Hin as (e & -> & _).
  rewrite assembled_name in Hstored. rewrite assembled_foreignKeyInfo in Hfk.
  rewrite assembled_fieldType, or_else_falsy by exact Hstored.
  unfold getFieldTypeFromColumnInfo. destruct e as [name info]. simpl in *.
  rewrite bool_decide_eq_true_2 by exact Hfk. reflexivity.
Qed.

(** C5. A column for which the stored configuration declares a field type
    (a non-empty string, as every member of [FieldType] is), and which has
    no foreign key, comes out with that field type, whatever its native
    type. *)
Theorem stored_fieldType_is_used_verbatim (tableName : string)
    (stored : gmap string StoredColumn.t) :
  exists columns,
    outcome (getColumns humanize idColumns getBaseOptions loadModule this
               tableName (Some stored)) = Returned columns
    /\ forall column storedColumn fieldType,
         column ∈ columns ->
         stored !! Column.name column = Some storedColumn ->
         StoredColumn.fieldType storedColumn = Some fieldType ->
         fieldType <> "" ->
         Column.foreignKeyInfo column = None ->
         Column.fieldType column = fieldType.
Proof.
  eexists. split; [apply getColumns_returned|]. cbn zeta.
  intros column storedColumn fieldType Hin Hstored Hdeclared Hne _.
  apply list_elem_of_fmap in Hin as (e & -> & _).
  rewrite assembled_name in Hstored. rewrite assembled_fieldType.
  simpl. rewrite Hstored. simpl. rewrite Hdeclared.
  apply or_else_truthy. exact Hne.
Qed.

(** C3, as amended. The label of every returned column is ["ID"] for the
    column named [id] and the humanized column name for any other; the
    stored configuration, its [label] included, has no part in it. *)
Theorem label_is_ID_or_humanized_name (tableName : string)
    (storedColumns : option (gmap string StoredColumn.t)) :
  exists columns,
    outcome (getColumns humanize idColumns getBaseOptions loadModule this
               tableName storedColumns) = Returned columns
    /\ forall column, column ∈ columns ->
         Column.label column
         = if String.eqb (Column.name column) "id" then "ID"
           else humanize (Column.name column).
Proof.
  eexists. split; [apply getColumns_returned|]. cbn zeta.
  intros column Hin. apply list_elem_of_fmap in Hin as (e & -> & _).
  rewrite assembled_label, assembled_name. reflexivity.
Qed.
(** With column names that do not repeat (they are the keys of one
    object), the default field options of a column are the default export
    of the options module of its own field type. *)
Lemma default_fieldOptions (tableName : string)
    (storedColumns : option (gmap string StoredColumn.t))
    (rawColumns : list (string * ColumnInfo)) (e : string * ColumnInfo) :
  NoDup rawColumns.*1 -> e ∈ rawColumns ->
  match fromEntries (omap entryOf (map (typed tableName storedColumns)
                                     rawColumns)) !! e.1 with
  | Some (Some options) => options
  | _ => ∅
  end
  = moduleDefault
      (ColumnWithFieldType.fieldType (typed tableName storedColumns e)).
Proof.
  intros Hnodup Hin.
  pose proof (fromEntries_omap_lookup entryOf ColumnWithFieldType.name
                (map (typed tableName storedColumns) rawColumns)) as Hlookup.
  assert (Hname : forall x,
            ColumnWithFieldType.name (typed tableName storedColumns x) = x.1).
  { intros [n i]. reflexivity. }
  rewrite <- (Hname e). rewrite Hlookup.
  - unfold entryOf, moduleDefault.
    destruct (loadModule _) as [[options|]|code]; reflexivity.
  - intros a k v. unfold entryOf. destruct (loadModule _); [|discriminate].
    intros [= <- _]. reflexivity.
  - change (map (typed tableName storedColumns) rawColumns)
      with (typed tableName storedColumns <$> rawColumns).
    rewrite <- list_fmap_compose.
    erewrite list_fmap_ext; [exact Hnodup|]. intros _ x _. apply Hname.
  - apply (list_elem_of_fmap_2 (typed tableName storedColumns)). exact Hin.
Qed.

Lemma lookup_spread (first second : Options) (k : string) :
  spread first second !! k
  = match second !! k with
    | Some v => Some v
    | None => first !! k
    end.
Proof.
  unfold spread. rewrite lookup_union.
  destruct (second !! k), (first !! k); reflexivity.
Qed.

Lemma spread_empty (first : Options) : spread first ∅ = first.
Proof. unfold spread. apply (left_id_L ∅ (∪)). Qed.

(** C6. The stored [baseOptions] and [fieldOptions] of a column are merged
    over its defaults key by key: at a key the stored options have, the
    stored value stands alone; at any other key the default value stays;
    and with no stored options the defaults come out unchanged. The
    defaults are the base options of [getBaseOptions] and the default
    export of the options module of the column's field type. *)
Theorem stored_options_merge_shallowly (tableName : string)
    (storedColumns : option (gmap string StoredColumn.t)) :
  NoDup (client_columnInfo (client this) tableName).*1 ->
  exists columns,
    outcome (getColumns humanize idColumns getBaseOptions loadModule this
               tableName storedColumns) = Returned columns
    /\ forall column, column ∈ columns ->
         let storedColumn :=
           storedColumnOf storedColumns (Column.name column) in
         let storedBase := storedColumn ≫= StoredColumn.baseOptions in
         let storedField := storedColumn ≫= StoredColumn.fieldOptions in
         (forall k,
            Column.baseOptions column !! k
            = match default ∅ storedBase !! k with
              | Some v => Some v
              | None => getBaseOptions !! k
              end)
         /\ (forall k,
              Column.fieldOptions column !! k
              = match default ∅ storedField !! k with
                | Some v => Some v
                | None => moduleDefault (Column.fieldType column) !! k
                end)
         /\ (storedBase = None -> Column.baseOptions column = getBaseOptions)
         /\ (storedField = None ->
             Column.fieldOptions column
             = moduleDefault (Column.fieldType column)).
Proof.
  intros Hnodup. eexists. split; [apply getColumns_returned|]. cbn zeta.
  intros column Hin. apply list_elem_of_fmap in Hin as (e & -> & Hin).
  rewrite assembled_name, assembled_baseOptions, assembled_fieldOptions.
  rewrite (default_fieldOptions _ _ _ _ Hnodup Hin).
  assert (Htype :
    Column.fieldType (assembled tableName storedColumns
      (fromEntries (omap entryOf (map (typed tableName storedColumns)
         (client_columnInfo (client this) tableName)))) e)
    = ColumnWithFieldType.fieldType (typed tableName storedColumns e)).
  { destruct e. reflexivity. }
  rewrite Htype. repeat split.
  - intros k. apply lookup_spread.
  - intros k. apply lookup_spread.
  - intros ->. apply spread_empty.
  - intros ->. apply spread_empty.
Qed.

Lemma find_first_flagged (before after : list InspectedColumn.t)
    (first : InspectedColumn.t) :
  (forall c, c ∈ before -> InspectedColumn.is_primary_key c = false) ->
  InspectedColumn.is_primary_key first = true ->
  List.find (fun c => InspectedColumn.is_primary_key c) (before ++ first :: after)
  = Some first.
Proof.
  intros Hbefore Hfirst. induction before as [|c before IH]; simpl.
  - rewrite Hfirst. reflexivity.
  - rewrite (Hbefore c) by (apply elem_of_cons; left; reflexivity).
    apply IH. intros c' Hc'. apply Hbefore. apply elem_of_cons. right.
    exact Hc'.
Qed.

(** C10. When the inspector flags several columns of a table as primary
    key, [getPrimaryKeyColumn] returns the name of the first one it lists,
    without error, and [getColumns] sets [primaryKey] on a column exactly
    when it bears that name. If the names of the column dictionary do not
    repeat and that name is among them, one returned column is marked and
    every other is not. *)
Theorem composite_key_is_reduced_to_its_first_column (tableName : string)
    (storedColumns : option (gmap string StoredColumn.t))
    (before after : list InspectedColumn.t) (first second : InspectedColumn.t) :
  inspector_columnInfo (inspector this) tableName = before ++ first :: after ->
  (forall c, c ∈ before -> InspectedColumn.is_primary_key c = false) ->
  InspectedColumn.is_primary_key first = true ->
  second ∈ after -> InspectedColumn.is_primary_key second = true ->
  getPrimaryKeyColumn this tableName
  = (Returned (Some (InspectedColumn.name first)), [InspectColumns tableName])
  /\ exists columns,
       outcome (getColumns humanize idColumns getBaseOptions loadModule this
                  tableName storedColumns) = Returned columns
       /\ (forall column, column ∈ columns ->
              Column.primaryKey column
              = bool_decide (Column.name column = InspectedColumn.name first))
       /\ (NoDup (client_columnInfo (client this) tableName).*1 ->
           InspectedColumn.name first
           ∈ (client_columnInfo (client this) tableName).*1 ->
           exists left key right,
             columns = left ++ key :: right
             /\ Column.name key = InspectedColumn.name first
             /\ Column.primaryKey key = true
             /\ forall other, other ∈ left ++ right ->
                              Column.primaryKey other = false).
Proof.
  intros Hlisted Hbefore Hfirst _ _.
  assert (Hpk : primaryKeyOf tableName = Some (InspectedColumn.name first)).
  { unfold primaryKeyOf. rewrite Hlisted.
    rewrite (find_first_flagged _ _ _ Hbefore Hfirst). reflexivity. }
  split.
  { rewrite getPrimaryKeyColumn_run. fold (primaryKeyOf tableName).
    rewrite Hpk. reflexivity. }
  eexists. split; [apply getColumns_returned|]. cbn zeta.
  set (build := assembled tableName storedColumns _).
  assert (Hflag : forall e,
            Column.primaryKey (build e) = bool_decide (e.1 = InspectedColumn.name first)).
  { intros e. subst build. rewrite assembled_primaryKey, Hpk.
    apply bool_decide_ext. split; [intros [= ->] | intros ->]; reflexivity. }
  split.
  - intros column Hin. apply list_elem_of_fmap in Hin as (e & -> & _).
    rewrite Hflag. subst build. rewrite assembled_name. reflexivity.
  - intros Hnodup Hamong.
    apply list_elem_of_fmap in Hamong as (e & Hname & Hin).
    apply list_elem_of_split in Hin as (r1 & r2 & Hsplit).
    rewrite Hsplit in Hnodup |- *. rewrite fmap_app, fmap_cons in Hnodup.
    apply NoDup_app in Hnodup as (_ & Hleft & Hright).
    apply NoDup_cons in Hright as [Hright _].
    exists (map build r1), (build e), (map build r2).
    split; [rewrite map_app; reflexivity|].
    split; [subst build; rewrite assembled_name; symmetry; exact Hname|].
    split; [rewrite Hflag; apply bool_decide_eq_true_2; symmetry; exact Hname|].
    intros other Hother. apply elem_of_app in Hother as [Hother|Hother];
      apply list_elem_of_fmap in Hother as (x & -> & Hx);
      rewrite Hflag; apply bool_decide_eq_false_2; intros Heq.
    + apply (Hleft x.1); [apply list_elem_of_fmap_2; exact Hx|].
      rewrite Heq, Hname. apply elem_of_cons. left. reflexivity.
    + apply Hright. rewrite <- Hname, <- Heq.
      apply list_elem_of_fmap_2. exact Hx.
Qed.
End ColumnFacts.

(** ** The worked table *)

(** The end-to-end examples of the specification (section 8, items 7 to
    9). *)
Example users_fieldTypes :
  Users.fieldTypes (Users.getColumns "users" None)
  = Some [ ("id", "Id"); ("email", "Text"); ("manager_id", "Association") ].
Proof. vm_compute. reflexivity. Qed.

Example contains_filter :
  queries (events (getRecords Users.service "users" None None
                     (Some [ {| columnName := "name"; condition := "contains";
                                value := "an" |} ])
                     None "asc" []))
  = [ Knex.where_ "name" "LIKE" "%an%" (Knex.table "users") ].
Proof. reflexivity. Qed.

Example deleteRecords_single_delete :
  events (deleteRecords Users.service "users" [1; 2; 3])
  = [ InspectColumns "users";
      Run (Knex.whereIn "id" [1; 2; 3] (Knex.delete (Knex.table "users"))) ].
Proof. reflexivity. Qed.

(** C1, counterexample. [manager_id] of [users] references [users.id], so
    it carries [foreignKeyInfo]; with a stored configuration that declares
    it a [Number], [getColumns] returns it as [Number], not [Association]. *)
Lemma stored_fieldType_overrides_foreign_key :
  Users.fieldTypes (Users.getColumns "users" (Some Users.manager_as_number))
  = Some [ ("id", "Id"); ("email", "Text"); ("manager_id", "Number") ]
  /\ (Column.foreignKeyInfo
      <$> Users.column_named "manager_id"
            (Users.getColumns "users" (Some Users.manager_as_number)))
     = Some (Some {| ForeignKeyInfo.constraintName :=
                       Some "users_manager_id_fkey";
                     ForeignKeyInfo.tableName := "users";
                     ForeignKeyInfo.columnName := "manager_id";
                     ForeignKeyInfo.foreignTableName := "users";
                     ForeignKeyInfo.foreignColumnName := "id";
                     ForeignKeyInfo.foreignTableSchema := Some "public";
                     ForeignKeyInfo.onUpdate := Some "NO ACTION";
                     ForeignKeyInfo.onDelete := Some "NO ACTION" |}).
Proof. split; vm_compute; reflexivity. Qed.

(** Reading a concrete run: the list of columns it returned. *)
Ltac run_columns H :=
  vm_compute in H; injection H as <-.

Ltac nth_column n :=
  lazymatch n with
  | O => apply elem_of_cons; left; reflexivity
  | S ?m => apply elem_of_cons; right; nth_column m
  end.

(** C1 as amended, at [manager_id] of [users] with nothing stored. *)
Lemma foreign_key_without_stored_type_witness :
  exists column,
    Users.column_named "manager_id" (Users.getColumns "users" None)
    = Some column
    /\ Column.fieldType column = "Association".
Proof.
  destruct (foreign_key_without_stored_type_is_Association Users.humanize
              Users.idColumns Users.getBaseOptions Users.loadModule
              Users.service "users" None) as (columns & Hrun & Hall).
  run_columns Hrun.
  eexists. split; [vm_compute; reflexivity|].
  apply Hall; [nth_column 2%nat | eexists; reflexivity | reflexivity].
Defined.

(** C5 at [role] of [memberships], stored as a [Select]. *)
Lemma stored_fieldType_witness :
  exists column,
    Users.column_named "role"
      (Users.getColumns "memberships" (Some Users.role_as_select))
    = Some column
    /\ Column.fieldType column = "Select".
Proof.
  destruct (stored_fieldType_is_used_verbatim Users.humanize
              Users.idColumns Users.getBaseOptions Users.loadModule
              Users.service "memberships" Users.role_as_select)
    as (columns & Hrun & Hall).
  run_columns Hrun.
  eexists. split; [vm_compute; reflexivity|].
  apply (Hall _ (Users.configured (Some "Select") None None None));
    [nth_column 2%nat | reflexivity | reflexivity | discriminate
    | reflexivity].
Defined.

(** C3, counterexample. For the column [email] of [users], a stored label
    [Contact] would have to come back as the label, and so would a stored
    label [E-mail]; the code returns the humanized name both times, so no
    [humanize] at all makes the stored label win. *)
Lemma stored_label_is_not_read :
  ~ exists humanize : string -> string,
      forall (stored : gmap string StoredColumn.t) columns column
             storedColumn label,
        outcome (getColumns humanize Users.idColumns Users.getBaseOptions
                   Users.loadModule Users.service "users" (Some stored))
        = Returned columns ->
        column ∈ columns ->
        stored !! Column.name column = Some storedColumn ->
        StoredColumn.label storedColumn = Some label ->
        Column.label column = label.
Proof.
  intros [humanize Hclaim].
  assert (Hlabel : forall label, humanize "email" = label).
  { intros label.
    pose proof (getColumns_returned humanize Users.idColumns
                  Users.getBaseOptions Users.loadModule Users.service "users"
                  (Some (Users.email_labelled label))) as Hrun.
    cbn zeta in Hrun.
    change (client_columnInfo (client Users.service) "users")
      with [ ("id", Users.column "integer");
             ("email", Users.column "character varying");
             ("manager_id", Users.column "integer") ] in Hrun.
    cbn [map] in Hrun.
    lazymatch type of Hrun with
    | _ = Returned [_; ?email; _] =>
        assert (Hemail : Column.label email = label)
    end.
    { eapply (Hclaim (Users.email_labelled label) _ _
                (Users.configured None None None (Some label)) label Hrun).
      - nth_column 1%nat.
      - apply lookup_singleton_eq.
      - reflexivity. }
    rewrite assembled_label in Hemail. exact Hemail. }
  pose proof (Hlabel "Contact") as H1. rewrite (Hlabel "E-mail") in H1.
  discriminate H1.
Qed.

(** C3 as amended, at [id] and [email] of [users], the latter with a
    stored label. *)
Lemma label_witness :
  exists id email,
    Users.column_named "id"
      (Users.getColumns "users" (Some (Users.email_labelled "Contact")))
    = Some id
    /\ Users.column_named "email"
         (Users.getColumns "users" (Some (Users.email_labelled "Contact")))
       = Some email
    /\ Column.label id = "ID"
    /\ Column.label email = Users.humanize "email".
Proof.
  destruct (label_is_ID_or_humanized_name Users.humanize Users.idColumns
              Users.getBaseOptions Users.loadModule Users.service "users"
              (Some (Users.email_labelled "Contact")))
    as (columns & Hrun & Hall).
  run_columns Hrun.
  eexists. eexists.
  split; [vm_compute; reflexivity|].
  split; [vm_compute; reflexivity|].
  split.
  - refine (Hall _ _). nth_column 0%nat.
  - refine (Hall _ _). nth_column 1%nat.
Defined.

Lemma users_names_do_not_repeat :
  NoDup (client_columnInfo (client Users.service) "users").*1.
Proof.
  change (NoDup ["id"; "email"; "manager_id"]).
  repeat (apply NoDup_cons; split;
          [ rewrite ?elem_of_cons, elem_of_nil; intros H;
            repeat destruct H as [H|H]; solve [discriminate H | exact H] | ]).
  apply NoDup_nil. exact I.
Qed.

(** C6 at [email] of [users]: the stored [required] and [link] replace
    the defaults whole, [visibility] and [displayAs] stay. *)
Lemma stored_options_merge_witness :
  exists email,
    Users.column_named "email"
      (Users.getColumns "users" (Some Users.email_options))
    = Some email
    /\ Column.baseOptions email !! "required" = Some (JBool true)
    /\ Column.baseOptions email !! "visibility"
       = Some (JArr [ JStr "index"; JStr "show"; JStr "edit" ])
    /\ Column.fieldOptions email !! "link"
       = Some (JObj [ ("rel", JStr "nofollow") ])
    /\ Column.fieldOptions email !! "displayAs" = Some (JStr "text").
Proof.
  destruct (stored_options_merge_shallowly Users.humanize Users.idColumns
              Users.getBaseOptions Users.loadModule Users.service "users"
              (Some Users.email_options) users_names_do_not_repeat)
    as (columns & Hrun & Hall).
  run_columns Hrun.
  eexists. split; [vm_compute; reflexivity|].
  lazymatch goal with
  | |- Column.baseOptions ?email !! _ = _ /\ _ =>
      destruct (Hall email ltac:(nth_column 1%nat))
        as (Hbase & Hfield & _ & _)
  end.
  repeat split;
    (etransitivity; [first [apply Hbase | apply Hfield]
                    | vm_compute; reflexivity]).
Defined.

(** C10 at [memberships], keyed by (user_id, team_id). *)
Lemma composite_key_witness :
  getPrimaryKeyColumn Users.service "memberships"
  = (Returned (Some "user_id"), [InspectColumns "memberships"])
  /\ Users.primaryKeys (Users.getColumns "memberships" None)
     = Some [ ("user_id", true); ("team_id", false); ("role", false) ].
Proof.
  destruct (composite_key_is_reduced_to_its_first_column Users.humanize
              Users.idColumns Users.getBaseOptions Users.loadModule
              Users.service "memberships" None []
              [ Users.inspected "memberships" "team_id" "integer" true;
                Users.inspected "memberships" "role" "text" false ]
              (Users.inspected "memberships" "user_id" "integer" true)
              (Users.inspected "memberships" "team_id" "integer" true))
    as (Hpk & columns & Hrun & Hflags & _).
  - reflexivity.
  - intros c Hc. apply elem_of_nil in Hc. destruct Hc.
  - reflexivity.
  - apply elem_of_cons. left. reflexivity.
  - reflexivity.
  - split; [exact Hpk|].
    unfold Users.primaryKeys, returned, Users.getColumns. rewrite Hrun.
    run_columns Hrun. cbn [fmap option_fmap option_map map].
    rewrite !Hflags by (first [nth_column 0%nat | nth_column 1%nat
                               | nth_column 2%nat]).
    reflexivity.
Defined.



(** ** The validation schema *)

Lemma includes_spec (array : list string) (x : string) :
  includes array x = true <-> x ∈ array.
Proof.
  unfold includes. rewrite existsb_exists. split.
  - intros (y & Hin & Heq). apply String.eqb_eq in Heq. subst y.
    apply list_elem_of_In. exact Hin.
  - intros Hin. exists x. split; [apply list_elem_of_In; exact Hin|].
    apply String.eqb_refl.
Qed.

Lemma declared_keys_only (declared : list string)
    (fields : list (string * Json)) :
  forallb (fun field => includes declared field.1) fields = true
  <-> forall key, key ∈ fields.*1 -> key ∈ declared.
Proof.
  rewrite forallb_forall. split.
  - intros Hall key Hkey. apply list_elem_of_fmap in Hkey as (field & -> & Hin).
    apply includes_spec, Hall, list_elem_of_In. exact Hin.
  - intros Hall field Hin. apply includes_spec, Hall.
    apply list_elem_of_fmap_2, list_elem_of_In. exact Hin.
Qed.

Lemma accepts_name (value : option Json) :
  Joi.accepts (Joi.required (Joi.min 3 Joi.string)) value = true
  <-> exists name, value = Some (JStr name) /\ (3 <= String.length name)%nat.
Proof.
  destruct value as [[| | |name| |]|];
    cbn [Joi.accepts Joi.required Joi.min Joi.string negb];
    try (split; [discriminate | intros (nm & [=] & _)]).
  split.
  - intros Hok. apply andb_true_iff in Hok as [_ Hlen].
    exists name. split; [reflexivity|]. apply Nat.leb_le. exact Hlen.
  - intros (nm & [= <-] & Hlen). apply andb_true_iff. split.
    + destruct name; [simpl in Hlen; lia | reflexivity].
    + apply Nat.leb_le. exact Hlen.
Qed.

Lemma accepts_type (value : option Json) :
  Joi.accepts (Joi.required (Joi.valid ["postgresql"] Joi.string)) value = true
  <-> value = Some (JStr "postgresql").
Proof.
  destruct value as [[| | |text| |]|];
    cbn [Joi.accepts Joi.required Joi.valid Joi.string negb includes existsb];
    try (split; [discriminate | intros [=]]).
  rewrite orb_false_r. rewrite String.eqb_eq.
  split; [intros -> | intros [= ->]]; reflexivity.
Qed.

Lemma accepts_url (value : option Json) :
  Joi.accepts (Joi.required Joi.string) value = true
  <-> exists url, value = Some (JStr url) /\ url <> "".
Proof.
  destruct value as [[| | |text| |]|];
    cbn [Joi.accepts Joi.required Joi.string negb];
    try (split; [discriminate | intros (u & [=] & _)]).
  rewrite andb_true_r, negb_true_iff, String.eqb_neq. split.
  - intros Hne. exists text. split; [reflexivity | exact Hne].
  - intros (u & [= <-] & Hne). exact Hne.
Qed.

Lemma accepts_options (value : option Json) :
  Joi.accepts (Joi.object [ ("url", Joi.required Joi.string) ]) value = true
  <-> value = None
      \/ exists options url,
           value = Some (JObj options)
           /\ (forall key, key ∈ options.*1 -> key = "url")
           /\ property "url" options = Some (JStr url) /\ url <> "".
Proof.
  destruct value as [[| | | | |options]|];
    try (simpl; split; [discriminate | intros [[=]|(o & u & [=] & _)]]).
  - change (Joi.accepts (Joi.object [("url", Joi.required Joi.string)])
              (Some (JObj options)))
      with (forallb (fun field => includes ["url"] field.1) options
            && (Joi.accepts (Joi.required Joi.string) (property "url" options)
                && true)).
    rewrite andb_true_r, andb_true_iff, declared_keys_only, accepts_url.
    split.
    + intros [Hkeys (url & Hurl & Hne)]. right. exists options, url.
      repeat split; try assumption.
      intros key Hkey. apply Hkeys in Hkey.
      apply list_elem_of_singleton in Hkey. exact Hkey.
    + intros [[=]|(o & url & [= <-] & Hkeys & Hurl & Hne)]. split.
      * intros key Hkey. apply list_elem_of_singleton, Hkeys, Hkey.
      * exists url. split; assumption.
  - simpl. split; [intros _; left; reflexivity | reflexivity].
Qed.

(** C9, counterexample. A definition named [shop], of type [mysql], with
    an [options] object that has a [url]: the name has four characters, the
    type is one of the engines and the url is there, yet the schema refuses
    it; and the same definition of type [postgresql] with no [options] at
    all is accepted. *)
Lemma schema_refuses_mysql :
  Joi.accepts schema (Some Submitted.mysql_source) = false
  /\ Joi.accepts schema (Some Submitted.without_options) = true.
Proof. split; reflexivity. Qed.

(** C9, as amended. Of the objects whose [options] are not handed in as
    JSON text, the schema accepts exactly those that have no key besides
    [name], [options] and [type]; whose [name] is a string of at least three
    characters; whose [type] is the string [postgresql]; and whose
    [options], if there are any, are an object with [url] as its only key,
    holding a non-empty string. *)
Theorem schema_accepts_iff (fields : list (string * Json)) :
  (forall text, property "options" fields <> Some (JStr text)) ->
  Joi.accepts schema (Some (JObj fields)) = true
  <-> (forall key, key ∈ fields.*1 -> key ∈ ["name"; "options"; "type"])
      /\ (exists name, property "name" fields = Some (JStr name)
                       /\ (3 <= String.length name)%nat)
      /\ property "type" fields = Some (JStr "postgresql")
      /\ (property "options" fields = None
          \/ exists options url,
               property "options" fields = Some (JObj options)
               /\ (forall key, key ∈ options.*1 -> key = "url")
               /\ property "url" options = Some (JStr url) /\ url <> "").
Proof.
  intros _.
  change (Joi.accepts schema (Some (JObj fields)))
    with (forallb (fun field => includes ["name"; "options"; "type"] field.1)
            fields
          && (Joi.accepts (Joi.required (Joi.min 3 Joi.string))
                (property "name" fields)
              && (Joi.accepts (Joi.object [ ("url", Joi.required Joi.string) ])
                    (property "options" fields)
                  && (Joi.accepts
                        (Joi.required (Joi.valid ["postgresql"] Joi.string))
                        (property "type" fields)
                      && true)))).
  rewrite andb_true_r, !andb_true_iff.
  rewrite declared_keys_only, accepts_name, accepts_options, accepts_type.
  tauto.
Qed.

(** C9 as amended, at a [postgresql] definition with a url. *)
Lemma schema_accepts_witness :
  Joi.accepts schema (Some Submitted.postgresql_source) = true.
Proof.
  apply schema_accepts_iff.
  - intros text. discriminate.
  - split; [|split; [|split]].
    + intros key Hkey. cbn in Hkey.
      rewrite !elem_of_cons in Hkey. rewrite !elem_of_cons.
      rewrite elem_of_nil in Hkey. tauto.
    + exists "shop". split; [reflexivity | simpl; lia].
    + reflexivity.
    + right. exists [ ("url", JStr "postgresql://localhost/shop") ],
        "postgresql://localhost/shop".
      split; [reflexivity|]. split; [|split; [reflexivity | discriminate]].
      intros key Hkey. apply list_elem_of_singleton in Hkey. exact Hkey.
Defined.

(** * Properties of the further parts *)

(** ** getRecords: filters and ordering *)

Lemma filter_isWhere_compiled (filters : list IFilter) :
  List.filter isWhere (map compiled filters) = map compiled filters.
Proof.
  induction filters as [|f fs IH]; simpl; [reflexivity|].
  rewrite IH. reflexivity.
Qed.

Lemma filter_isOrderBy_compiled (filters : list IFilter) :
  List.filter isOrderBy (map compiled filters) = [].
Proof. induction filters as [|f fs IH]; simpl; [reflexivity | exact IH]. Qed.


(** X2. Unless it is called with a numeric limit and a negative offset,
    [getRecords] sends one query; when [orderBy] is a non-empty string, the
    query ends with one ordering, on the column qualified by the table name
    and in the requested direction, and has no other; when [orderBy] is
    missing or empty the query has no ordering. *)
Theorem getRecords_orders_by_qualified_column (this : QueryService)
    (tableName : string) (limit offset : option Json)
    (filters : option (list IFilter)) (orderBy : option string)
    (orderDirection : string) (select : list string) :
  (forall l o, limit = Some (JNum l) -> offset = Some (JNum o) -> 0 <= o) ->
  exists query,
    events (getRecords this tableName limit offset filters orderBy
              orderDirection select) = [Run query]
    /\ match orderBy with
       | Some column =>
           if String.eqb column ""
           then List.filter isOrderBy (q_statements query) = []
           else exists before,
                  q_statements query
                  = before ++ [OrderBy (tableName +:+ "." +:+ column)
                                       orderDirection]
                  /\ List.filter isOrderBy before = []
       | None => List.filter isOrderBy (q_statements query) = []
       end.
Proof.
  intros Hoffset.
  rewrite getRecords_run, (negativeOffset_false _ _ Hoffset). cbn zeta.
  eexists. split; [reflexivity|].
  cbn [q_statements].
  assert (Hbefore :
    List.filter isOrderBy
      ((if paginated limit offset is Some _ then [Columns select] else [])
       ++ map compiled (default [] filters)) = []).
  { rewrite List.filter_app, filter_isOrderBy_compiled.
    destruct (paginated limit offset); reflexivity. }
  destruct orderBy as [column|]; simpl.
  - destruct (String.eqb column ""); simpl.
    + rewrite app_nil_r. exact Hbefore.
    + eexists. split; [rewrite app_assoc; reflexivity | exact Hbefore].
  - rewrite app_nil_r. exact Hbefore.
Qed.

(** ** Operations keyed by the primary key, when there is one *)

Lemma bind_getPrimaryKeyColumn {A : Type} (this : QueryService)
    (tableName : string) (k : option string -> M A) :
  bind (getPrimaryKeyColumn this tableName) k
  = (outcome (k (primaryKeyOf this tableName)),
     InspectColumns tableName :: events (k (primaryKeyOf this tableName))).
Proof.
  rewrite (bind_returned _ _ (primaryKeyOf this tableName)) by reflexivity.
  reflexivity.
Qed.



(** X4. Every update or delete that reaches the client is restricted to the
    primary key: [updateRecord] and [deleteRecord] send nothing but one
    statement on the table with the single clause [pk = recordId], and
    [deleteRecords] one delete with the single clause [pk in recordIds],
    where [pk] is the non-empty name of the primary key column. *)
Theorem mutations_are_restricted_to_the_primary_key (this : QueryService)
    (tableName recordId : string) (recordIds : list Z) (data : Json) :
  let restricted (method : Method) (payload : option Json)
                 (clause : string -> Statement) (m : M Z) :=
    forall query, query ∈ queries (events m) ->
      exists pk,
        primaryKeyOf this tableName = Some pk /\ pk <> ""
        /\ query = {| q_method := method; q_table := Some tableName;
                      q_limit := None; q_offset := None;
                      q_statements := [clause pk];
                      q_data := payload; q_returning := None |}
        /\ m = (Returned (client_affected (client this) query),
                [InspectColumns tableName; Run query]) in
  restricted MUpdate (Some data) (fun pk => Where pk "=" recordId)
    (updateRecord this tableName recordId data)
  /\ restricted MDel None (fun pk => Where pk "=" recordId)
       (deleteRecord this tableName recordId)
  /\ restricted MDel None (fun pk => WhereIn pk recordIds)
       (deleteRecords this tableName recordIds).
Proof.
  cbn zeta. unfold updateRecord, deleteRecord, deleteRecords.
  rewrite !bind_getPrimaryKeyColumn.
  destruct (primaryKeyOf this tableName) as [pk|] eqn:Hpk.
  - destruct (String.eqb_spec pk "") as [->|Hne].
    + repeat split; intros query Hin; simpl in Hin;
        apply elem_of_nil in Hin; destruct Hin.
    + assert (Htruthy : truthy (Some pk) = true).
      { simpl. apply negb_true_iff, String.eqb_neq. exact Hne. }
      rewrite Htruthy. split; [|split].
      * destruct data as [|b|n|text|[|item items]|[|field fields]];
          intros query Hin; simpl in Hin;
          first [ apply elem_of_nil in Hin; destruct Hin
                | apply list_elem_of_singleton in Hin; subst query;
                  exists pk; repeat split; exact Hne ].
      * intros query Hin; simpl in Hin.
        apply list_elem_of_singleton in Hin; subst query.
        exists pk; repeat split; exact Hne.
      * intros query Hin; simpl in Hin.
        apply list_elem_of_singleton in Hin; subst query.
        exists pk; repeat split; exact Hne.
  - repeat split; intros query Hin; simpl in Hin;
      apply elem_of_nil in Hin; destruct Hin.
Qed.

(** X5. Each of the five operations throws the missing-primary-key error
    exactly when the inspector flags no column or the first flagged column
    has an empty name. With a primary key, [updateRecord] with data that
    have no property still sends nothing: it is rejected with the error of
    knex for an empty update, after the inspection of the columns. *)
Theorem primary_key_operations_throw_iff (this : QueryService)
    (tableName recordId : string) (select : list string) (data : Json)
    (recordIds : list Z) :
  let fails {A : Type} (m : M A) :=
    outcome m
    = Thrown ("Can't find a primary key for table " +:+ tableName +:+ ".")
    <-> truthy (primaryKeyOf this tableName) = false in
  fails (getRecord this tableName recordId select)
  /\ fails (createRecord this tableName data)
  /\ fails (updateRecord this tableName recordId data)
  /\ fails (deleteRecord this tableName recordId)
  /\ fails (deleteRecords this tableName recordIds)
  /\ (truthy (primaryKeyOf this tableName) = true ->
      exists message,
        updateRecord this tableName recordId (JObj [])
        = (Thrown message, [InspectColumns tableName])
        /\ String.prefix "Empty .update() call detected!" message = true).
Proof.
  cbn zeta.
  unfold getRecord, createRecord, updateRecord, deleteRecord, deleteRecords.
  rewrite !bind_getPrimaryKeyColumn.
  destruct (truthy (primaryKeyOf this tableName)); cbn [negb].
  - split; [split; discriminate|]. split; [split; discriminate|].
    split.
    { destruct data as [|b|n|text|[|item items]|[|field fields]];
        split; discriminate. }
    split; [split; discriminate|]. split; [split; discriminate|].
    intros _. eexists. split; reflexivity.
  - repeat split; discriminate.
Qed.

(** ** getColumns: what it awaits *)

Lemma events_bind {A B : Type} (m : M A) (k : A -> M B) (a : A) :
  outcome m = Returned a -> events (bind m k) = events m ++ events (k a).
Proof. intros Hm. rewrite (bind_returned m k a Hm). reflexivity. Qed.

Lemma forEachAsync_events {A B : Type} (f : A -> M B) (g : A -> B)
    (items : list A) :
  (forall a, outcome (f a) = Returned (g a)) ->
  events (forEachAsync f items) = flat_map (fun a => events (f a)) items.
Proof.
  intros Hf. induction items as [|a rest IH]; simpl; [reflexivity|].
  rewrite (events_bind _ _ (g a)) by apply Hf.
  rewrite (events_bind _ _ (map g rest))
    by (apply forEachAsync_returned; exact Hf).
  rewrite IH. cbn [events ret snd]. rewrite app_nil_r. reflexivity.
Qed.

Lemma imports_app (l1 l2 : list Event) :
  imports (l1 ++ l2) = imports l1 ++ imports l2.
Proof. unfold imports. apply omap_app. Qed.

Lemma warnings_app (l1 l2 : list Event) :
  warnings (l1 ++ l2) = warnings l1 ++ warnings l2.
Proof. unfold warnings. apply omap_app. Qed.

Section ColumnRuns.
Variable humanize : string -> string.
Variable idColumns : list string.
Variable getBaseOptions : Options.
Variable loadModule : string -> Imported.
Variable this : QueryService.

Local Abbreviation primaryKeyOf := (primaryKeyOf this).
Local Abbreviation foreignKeysOf := (foreignKeysOf this).
Local Abbreviation entryOf := (entryOf loadModule).
Local Abbreviation typed := (typed idColumns getBaseOptions this).
Local Abbreviation assembled :=
  (assembled humanize idColumns getBaseOptions this).
Local Abbreviation loadingOf := (loadingOf loadModule).
Local Abbreviation warningOf := (warningOf loadModule).

Lemma getDefaultFieldOptionsForFields_events
    (columns : list ColumnWithFieldType.t) :
  events (getDefaultFieldOptionsForFields loadModule columns)
  = flat_map (fun column =>
                loadingOf (ColumnWithFieldType.name column)
                          (ColumnWithFieldType.fieldType column))
      columns.
Proof.
  unfold getDefaultFieldOptionsForFields.
  rewrite (events_bind _ _ (map entryOf columns)).
  - cbn [events ret snd]. rewrite app_nil_r.
    rewrite (forEachAsync_events _ entryOf).
    + apply flat_map_ext. intros column. unfold loadingOf.
      rewrite (events_bind _ _ (loadModule (fieldOptionsPath
                 (ColumnWithFieldType.fieldType column)))) by reflexivity.
      destruct (loadModule _) as [d|code]; [reflexivity|].
      destruct (negb (String.eqb code "MODULE_NOT_FOUND")); reflexivity.
    + intros column.
      rewrite (outcome_bind _ _ (loadModule (fieldOptionsPath
                 (ColumnWithFieldType.fieldType column)))) by reflexivity.
      unfold entryOf. destruct (loadModule _) as [d|code]; [reflexivity|].
      destruct (negb (String.eqb code "MODULE_NOT_FOUND")); reflexivity.
  - apply forEachAsync_returned. intros column.
    rewrite (outcome_bind _ _ (loadModule (fieldOptionsPath
               (ColumnWithFieldType.fieldType column)))) by reflexivity.
    unfold entryOf. destruct (loadModule _) as [d|code]; [reflexivity|].
    destruct (negb (String.eqb code "MODULE_NOT_FOUND")); reflexivity.
Qed.
(** The whole log of [getColumns]: three metadata reads, then the loading
    of one options module per column. *)
Lemma getColumns_events (tableName : string)
    (storedColumns : option (gmap string StoredColumn.t)) :
  events (getColumns humanize idColumns getBaseOptions loadModule this
            tableName storedColumns)
  = [ColumnInfoOf tableName; InspectColumns tableName; InspectForeignKeys]
    ++ flat_map (fun entry =>
                   loadingOf entry.1
                     (ColumnWithFieldType.fieldType
                        (typed tableName storedColumns entry)))
         (client_columnInfo (client this) tableName).
Proof.
  unfold getColumns.
  rewrite (events_bind _ _ (client_columnInfo (client this) tableName))
    by reflexivity.
  rewrite (events_bind _ _ (primaryKeyOf tableName)) by reflexivity.
  rewrite (events_bind _ _
             (default [] (returned (getForeignKeys this tableName))))
    by reflexivity.
  cbn zeta.
  rewrite (events_bind _ _ _ (getDefaultFieldOptionsForFields_returned _ _)).
  rewrite getDefaultFieldOptionsForFields_events.
  cbn [events ret snd await getPrimaryKeyColumn getForeignKeys bind app].
  rewrite app_nil_r. rewrite !map_map, flat_map_concat_map, map_map.
  rewrite <- flat_map_concat_map.
  f_equal. f_equal. f_equal.
  apply flat_map_ext. intros [name info]. reflexivity.
Qed.

Lemma queries_loading (entries : list (string * ColumnInfo))
    (fieldTypeOf : string * ColumnInfo -> string) :
  queries (flat_map (fun entry => loadingOf entry.1 (fieldTypeOf entry))
             entries) = [].
Proof.
  induction entries as [|e rest IH]; [reflexivity|].
  cbn [flat_map]. rewrite queries_app, IH, app_nil_r.
  unfold loadingOf. destruct (loadModule _) as [d|code]; [reflexivity|].
  destruct (negb (String.eqb code "MODULE_NOT_FOUND")); reflexivity.
Qed.

Lemma imports_loading (entries : list (string * ColumnInfo))
    (fieldTypeOf : string * ColumnInfo -> string) :
  imports (flat_map (fun entry => loadingOf entry.1 (fieldTypeOf entry))
             entries)
  = map (fun entry => fieldOptionsPath (fieldTypeOf entry)) entries.
Proof.
  induction entries as [|e rest IH]; [reflexivity|].
  cbn [flat_map map]. rewrite imports_app, IH. f_equal.
  unfold loadingOf. destruct (loadModule _) as [d|code]; [reflexivity|].
  destruct (negb (String.eqb code "MODULE_NOT_FOUND")); reflexivity.
Qed.

Lemma warnings_loading (entries : list (string * ColumnInfo))
    (fieldTypeOf : string * ColumnInfo -> string) :
  warnings (flat_map (fun entry => loadingOf entry.1 (fieldTypeOf entry))
              entries)
  = omap (fun entry => warningOf entry.1 (fieldTypeOf entry)) entries.
Proof.
  induction entries as [|e rest IH]; [reflexivity|].
  cbn [flat_map]. rewrite warnings_app, IH.
  change (omap (fun entry => warningOf entry.1 (fieldTypeOf entry))
            (e :: rest))
    with (match warningOf e.1 (fieldTypeOf e) with
          | Some w => w :: omap (fun entry =>
                                   warningOf entry.1 (fieldTypeOf entry)) rest
          | None => omap (fun entry =>
                            warningOf entry.1 (fieldTypeOf entry)) rest
          end).
  unfold loadingOf, warningOf.
  destruct (loadModule _) as [d|code]; [reflexivity|].
  destruct (String.eqb code "MODULE_NOT_FOUND"); reflexivity.
Qed.

Lemma assembled_typed_fieldType (tableName : string)
    (storedColumns : option (gmap string StoredColumn.t))
    (fieldOptionsByFieldName : gmap string (option Options))
    (entry : string * ColumnInfo) :
  Column.fieldType
    (assembled tableName storedColumns fieldOptionsByFieldName entry)
  = ColumnWithFieldType.fieldType (typed tableName storedColumns entry).
Proof. destruct entry. reflexivity. Qed.

(** X6. [getColumns] only reads: it sends no query to the client. It
    awaits the column dictionary, the inspector's columns and the foreign
    keys, in that order and once each, and then imports one options module
    per returned column, in column order, also when several columns share
    a field type. *)
Theorem getColumns_reads_metadata_and_imports_per_column
    (tableName : string)
    (storedColumns : option (gmap string StoredColumn.t)) :
  let run := getColumns humanize idColumns getBaseOptions loadModule this
               tableName storedColumns in
  exists columns rest,
    outcome run = Returned columns
    /\ events run
       = [ColumnInfoOf tableName; InspectColumns tableName;
          InspectForeignKeys] ++ rest
    /\ Forall (fun e => match e with
                        | Import _ | Warn _ => True
                        | _ => False
                        end) rest
    /\ queries (events run) = []
    /\ imports (events run)
       = map (fun column => fieldOptionsPath (Column.fieldType column))
           columns.
Proof.
  cbn zeta. eexists. eexists.
  split; [apply getColumns_returned|]. cbn zeta.
  split; [apply getColumns_events|].
  rewrite getColumns_events. split; [|split].
  - apply Forall_flat_map, Forall_forall. intros e _. unfold loadingOf.
    destruct (loadModule _) as [d|code]; [repeat constructor|].
    destruct (negb (String.eqb code "MODULE_NOT_FOUND"));
      repeat constructor.
  - rewrite queries_app, queries_loading. reflexivity.
  - rewrite imports_app, imports_loading. cbn [imports omap list_omap app].
    rewrite map_map. apply map_ext. intros e.
    rewrite assembled_typed_fieldType. reflexivity.
Qed.

End ColumnRuns.

(** ** getColumns: facts of the live schema, inferred field types *)

Lemma fromEntries_lookup_Some {V : Type} (entries : list (string * V))
    (k : string) (v : V) :
  fromEntries entries !! k = Some v -> (k, v) ∈ entries.
Proof.
  induction entries as [|[k' v'] entries IH] using rev_ind.
  - unfold fromEntries. simpl. rewrite lookup_empty. discriminate.
  - rewrite fromEntries_snoc. destruct (decide (k' = k)) as [->|Hne].
    + rewrite lookup_insert_eq. intros [= ->].
      apply elem_of_app. right. apply list_elem_of_singleton. reflexivity.
    + rewrite lookup_insert_ne by exact Hne. intros Hin.
      apply elem_of_app. left. apply IH. exact Hin.
Qed.

Lemma switch_Forall {A : Type} (P : A -> Prop) (s : string)
    (cases : list (string * A)) (d : A) :
  P d -> Forall (fun c => P c.2) cases -> P (switch s cases d).
Proof.
  intros Hd Hcases. induction Hcases as [|[label body] rest Hbody _ IH];
    simpl; [exact Hd|].
  destruct (String.eqb s label); [exact Hbody | exact IH].
Qed.

(** Membership in a list that is written out. *)
Ltac in_list :=
  solve [repeat first [apply list_elem_of_here | apply list_elem_of_further]].

Section ColumnFields.
Variable humanize : string -> string.
Variable idColumns : list string.
Variable getBaseOptions : Options.
Variable loadModule : string -> Imported.
Variable this : QueryService.

Local Abbreviation primaryKeyOf := (primaryKeyOf this).
Local Abbreviation foreignKeysOf := (foreignKeysOf this).
Local Abbreviation typed := (typed idColumns getBaseOptions this).
Local Abbreviation assembled :=
  (assembled humanize idColumns getBaseOptions this).
Local Abbreviation getFieldTypeFromColumnInfo :=
  (getFieldTypeFromColumnInfo idColumns).

(** Inference on a column without foreign key. *)
Lemma inference_without_foreign_key (column : ColumnWithBaseOptions.t) :
  ColumnWithBaseOptions.foreignKeyInfo column = None ->
  getFieldTypeFromColumnInfo column
  ∈ [ "Text"; "Boolean"; "DateTime"; "Json"; "Textarea";
      if includes idColumns (ColumnWithBaseOptions.name column)
      then "Id" else "Number" ].
Proof.
  intros Hnone. unfold getFieldTypeFromColumnInfo.
  rewrite Hnone. rewrite bool_decide_eq_false_2 by (intros [x Hx]; discriminate).
  cbn zeta.
  apply (switch_Forall (fun t => t ∈ _)); [in_list|].
  repeat (apply Forall_cons; split; [cbn [snd]; in_list|]).
  apply Forall_nil. exact I.
Qed.

Lemma inference_of_unknown_type (column : ColumnWithBaseOptions.t) :
  ColumnWithBaseOptions.foreignKeyInfo column = None ->
  type (ColumnWithBaseOptions.dataSourceInfo column) ∉ nativeTypes ->
  getFieldTypeFromColumnInfo column = "Text".
Proof.
  intros Hnone Hunknown. unfold getFieldTypeFromColumnInfo.
  rewrite Hnone. rewrite bool_decide_eq_false_2 by (intros [x Hx]; discriminate).
  cbn zeta. apply switch_default. exact Hunknown.
Qed.

Lemma inference_with_foreign_key (column : ColumnWithBaseOptions.t) :
  is_Some (ColumnWithBaseOptions.foreignKeyInfo column) ->
  getFieldTypeFromColumnInfo column = "Association".
Proof.
  intros Hsome. unfold getFieldTypeFromColumnInfo.
  rewrite bool_decide_eq_true_2 by exact Hsome. reflexivity.
Qed.

(** X8. The facts that come from the live schema pass through untouched:
    the names and the [dataSourceInfo] of the returned columns, paired, are
    the column dictionary that the client reported, entry for entry,
    whatever the stored configuration. *)
Theorem getColumns_passes_dataSourceInfo_through (tableName : string)
    (storedColumns : option (gmap string StoredColumn.t)) :
  exists columns,
    outcome (getColumns humanize idColumns getBaseOptions loadModule this
               tableName storedColumns) = Returned columns
    /\ map (fun column => (Column.name column, Column.dataSourceInfo column))
         columns
       = client_columnInfo (client this) tableName.
Proof.
  eexists. split; [apply getColumns_returned|]. cbn zeta.
  rewrite map_map. rewrite <- (map_id (client_columnInfo _ _)) at 2.
  apply map_ext. intros [name info]. reflexivity.
Qed.

(** X9. A returned column whose name is not that of a member of
    [Object.prototype] carries [foreignKeyInfo] exactly when the inspector
    lists a constraint that starts at that column of that table, and the
    info it carries is one of those constraints: constraints of other
    tables, or of other columns, never show up on it. *)
Theorem foreignKeyInfo_is_a_constraint_of_the_column (tableName : string)
    (storedColumns : option (gmap string StoredColumn.t)) :
  exists columns,
    outcome (getColumns humanize idColumns getBaseOptions loadModule this
               tableName storedColumns) = Returned columns
    /\ forall column, column ∈ columns ->
         Column.name column ∉ objectPrototypeNames ->
         (is_Some (Column.foreignKeyInfo column)
          <-> exists fk, fk ∈ inspector_foreignKeys (inspector this)
                /\ InspectedForeignKey.table fk = tableName
                /\ InspectedForeignKey.column fk = Column.name column)
         /\ forall info, Column.foreignKeyInfo column = Some info ->
              ForeignKeyInfo.tableName info = tableName
              /\ ForeignKeyInfo.columnName info = Column.name column
              /\ exists fk, fk ∈ inspector_foreignKeys (inspector this)
                   /\ ForeignKeyInfo.constraintName info
                      = InspectedForeignKey.constraint_name fk
                   /\ ForeignKeyInfo.foreignTableName info
                      = InspectedForeignKey.foreign_key_table fk
                   /\ ForeignKeyInfo.foreignColumnName info
                      = InspectedForeignKey.foreign_key_column fk.
Proof.
  eexists. split; [apply getColumns_returned|]. cbn zeta.
  intros column Hin _. apply list_elem_of_fmap in Hin as (e & -> & _).
  rewrite assembled_foreignKeyInfo, assembled_name. split.
  - apply foreignKeyInfo_present.
  - intros info Hinfo. unfold foreignKeysOf in Hinfo.
    apply fromEntries_lookup_Some in Hinfo.
    apply list_elem_of_fmap in Hinfo as (info' & [= Hname ->] & Hin).
    unfold returned, outcome, getForeignKeys in Hin. simpl in Hin.
    apply list_elem_of_fmap in Hin as (fk & -> & Hin).
    apply list_elem_of_filter in Hin as [Htable Hin]. simpl in *.
    repeat split; try assumption; try (symmetry; assumption).
    exists fk. repeat split. exact Hin.
Qed.

(** X10. For a column with no stored field type, the field type is
    [Association] exactly when the column carries [foreignKeyInfo]:
    inference from the native type never yields it. *)
Theorem Association_is_inferred_only_from_a_foreign_key (tableName : string)
    (storedColumns : option (gmap string StoredColumn.t)) :
  exists columns,
    outcome (getColumns humanize idColumns getBaseOptions loadModule this
               tableName storedColumns) = Returned columns
    /\ forall column, column ∈ columns ->
         truthy (storedColumnOf storedColumns (Column.name column)
                 ≫= StoredColumn.fieldType) = false ->
         (Column.fieldType column = "Association"
          <-> is_Some (Column.foreignKeyInfo column)).
Proof.
  eexists. split; [apply getColumns_returned|]. cbn zeta.
  intros column Hin Hstored.
  apply list_elem_of_fmap in Hin as (e & -> & _).
  rewrite assembled_name in Hstored.
  rewrite assembled_fieldType, assembled_foreignKeyInfo.
  rewrite or_else_falsy by exact Hstored.
  destruct (foreignKeysOf tableName !! e.1) as [info|] eqn:Hfk.
  - split; [eauto|]. intros _. destruct e as [name i].
    apply inference_with_foreign_key. exists info. exact Hfk.
  - split; [|intros [x Hx]; discriminate].
    intros Hassoc. exfalso.
    match type of Hassoc with ?t = _ =>
      assert (Hrange : t ∈ [ "Text"; "Boolean"; "DateTime"; "Json";
                             "Textarea";
                             if includes idColumns e.1 then "Id"
                             else "Number" ]) end.
    { destruct e as [name i].
      apply (inference_without_foreign_key
               (withBaseOptions getBaseOptions
                  (withForeignKeyInfo (foreignKeysOf tableName)
                     (withSourceInfo (primaryKeyOf tableName) (name, i))))).
      exact Hfk. }
    rewrite Hassoc in Hrange.
    destruct (includes idColumns e.1);
      repeat (apply elem_of_cons in Hrange as [Hrange|Hrange];
              [discriminate Hrange|]);
      apply elem_of_nil in Hrange; destruct Hrange.
Qed.

(** X11. For a column with no stored field type, the field type is one of
    the eight that inference knows; it is [Id] only for a column without
    foreign key whose name is among [idColumns]; and a column without
    foreign key whose native type the table does not name is a [Text]. *)
Theorem inferred_fieldType_range (tableName : string)
    (storedColumns : option (gmap string StoredColumn.t)) :
  exists columns,
    outcome (getColumns humanize idColumns getBaseOptions loadModule this
               tableName storedColumns) = Returned columns
    /\ forall column, column ∈ columns ->
         truthy (storedColumnOf storedColumns (Column.name column)
                 ≫= StoredColumn.fieldType) = false ->
         Column.fieldType column ∈ inferable
         /\ (Column.fieldType column = "Id" ->
             includes idColumns (Column.name column) = true
             /\ Column.foreignKeyInfo column = None)
         /\ (Column.foreignKeyInfo column = None ->
             type (Column.dataSourceInfo column) ∉ nativeTypes ->
             Column.fieldType column = "Text").
Proof.
  eexists. split; [apply getColumns_returned|]. cbn zeta.
  intros column Hin Hstored.
  apply list_elem_of_fmap in Hin as (e & -> & _).
  rewrite assembled_name in Hstored |- *.
  rewrite assembled_fieldType, assembled_foreignKeyInfo.
  rewrite or_else_falsy by exact Hstored.
  destruct e as [name info]. cbn [fst].
  set (column := withBaseOptions getBaseOptions _).
  destruct (foreignKeysOf tableName !! name) as [fk|] eqn:Hfk.
  - assert (Htype : getFieldTypeFromColumnInfo column = "Association").
    { apply inference_with_foreign_key. exists fk. exact Hfk. }
    rewrite Htype. split; [unfold inferable; in_list|].
    split; [discriminate | discriminate].
  - pose proof (inference_without_foreign_key column Hfk) as Hrange.
    change (ColumnWithBaseOptions.name column) with name in Hrange.
    split; [|split].
    + unfold inferable.
      destruct (includes idColumns name);
        repeat (apply elem_of_cons in Hrange as [->|Hrange]; [in_list|]);
        apply elem_of_nil in Hrange; destruct Hrange.
    + intros HId. rewrite HId in Hrange. split; [|reflexivity].
      destruct (includes idColumns name); [reflexivity|].
      repeat (apply elem_of_cons in Hrange as [Hrange|Hrange];
              [discriminate Hrange|]).
      apply elem_of_nil in Hrange. destruct Hrange.
    + intros _ Hunknown.
      apply inference_of_unknown_type; [exact Hfk | exact Hunknown].
Qed.
End ColumnFields.

(** ** Credentials *)

Section CredentialFacts.
Variable decrypt : string -> option string.
Variable JSON_parse : string -> option Json.

Lemma truthy_Some (v : option string) :
  truthy v = true <-> exists s, v = Some s /\ s <> "".
Proof.
  destruct v as [s|]; simpl.
  - rewrite negb_true_iff, String.eqb_neq. split.
    + intros Hne. exists s. split; [reflexivity | exact Hne].
    + intros (s' & [= <-] & Hne). exact Hne.
  - split; [discriminate | intros (s & [=] & _)].
Qed.

(** X12. [getParsedCredentials] returns the parsed credentials exactly
    when the data source is there with a non-empty encrypted blob, the blob
    decrypts to a non-empty text, and that text parses; each of its three
    errors has its own cause: no data source or blob, nothing decrypted,
    text that does not parse. *)
Theorem getParsedCredentials_outcomes (dataSource : option DataSource) :
  let encrypted := dataSource ≫= encryptedCredentials in
  let plain := decrypt (default "" encrypted) in
  (forall credentials,
     getParsedCredentials decrypt JSON_parse dataSource = Returned credentials
     <-> truthy encrypted = true /\ truthy plain = true
         /\ JSON_parse (default "" plain) = Some credentials)
  /\ (getParsedCredentials decrypt JSON_parse dataSource
      = Thrown "No data source provided."
      <-> truthy encrypted = false)
  /\ (getParsedCredentials decrypt JSON_parse dataSource
      = Thrown "No credentials on record."
      <-> truthy encrypted = true /\ truthy plain = false)
  /\ (getParsedCredentials decrypt JSON_parse dataSource
      = Thrown "Failed to parse encrypted credentials"
      <-> truthy encrypted = true /\ truthy plain = true
          /\ JSON_parse (default "" plain) = None).
Proof.
  cbn zeta. unfold getParsedCredentials.
  destruct dataSource as [[encrypted]|];
    cbn [mbind option_bind encryptedCredentials truthy];
    [destruct (truthy encrypted); cbn [negb];
     [destruct (truthy (decrypt (default "" encrypted))); cbn [negb];
      [destruct (JSON_parse _) as [parsed|]|]|]|];
    repeat split; intros; intuition congruence.
Qed.

End CredentialFacts.

(** ** The MySQL field types *)

Section MySQLFacts.
Variable idColumns : list string.

(** X14. The MySQL inference gives [Association] exactly when the column
    carries [foreignKeyInfo], whatever its native type, and otherwise one of
    [Text], [Boolean], [DateTime], [Json], [Textarea], [Id] and [Number]:
    it never gives [Select], because [enum] is already taken by the group
    of text types. *)
Theorem MySQL_fieldType_range (column : ColumnWithBaseOptions.t) :
  let fieldType := MySQL.getFieldOptionsFromColumnInfo idColumns column in
  (fieldType = "Association"
   <-> is_Some (ColumnWithBaseOptions.foreignKeyInfo column))
  /\ fieldType ∈ inferable
  /\ fieldType <> "Select".
Proof.
  cbn zeta. unfold MySQL.getFieldOptionsFromColumnInfo. cbn zeta.
  destruct (ColumnWithBaseOptions.foreignKeyInfo column) as [info|].
  - rewrite bool_decide_eq_true_2 by eauto.
    split; [split; eauto|]. split; [unfold inferable; in_list|discriminate].
  - rewrite bool_decide_eq_false_2 by (intros [x Hx]; discriminate).
    set (number := if includes idColumns _ then "Id" else "Number").
    match goal with
    | |- context [switch ?s ?cases ?d] =>
        assert (Hrange : switch s cases d
                         ∈ [ "Text"; "Boolean"; "DateTime"; "Json";
                             "Textarea"; number ]);
        [ cbn [switch];
          repeat (destruct (String.eqb _ _); [in_list|]); in_list
        | revert Hrange; generalize (switch s cases d);
          intros fieldType Hrange ]
    end.
    subst number.
    destruct (includes idColumns (ColumnWithBaseOptions.name column));
      repeat (apply elem_of_cons in Hrange as [->|Hrange];
              [split; [split; [discriminate | intros [x Hx]; discriminate]
                      | split; [unfold inferable; in_list | discriminate]]|]);
      apply elem_of_nil in Hrange; destruct Hrange.
Qed.

(** X15. On a native type that both inference tables name, the MySQL
    inference and the inference of the abstract service give the same
    field type for the same column. *)
Theorem engines_agree_on_shared_types (column : ColumnWithBaseOptions.t) :
  type (ColumnWithBaseOptions.dataSourceInfo column) ∈ sharedTypes ->
  MySQL.getFieldOptionsFromColumnInfo idColumns column
  = getFieldTypeFromColumnInfo idColumns column.
Proof.
  intros Hshared.
  unfold MySQL.getFieldOptionsFromColumnInfo, getFieldTypeFromColumnInfo.
  cbn zeta.
  destruct (bool_decide (is_Some (ColumnWithBaseOptions.foreignKeyInfo column)));
    [reflexivity|].
  unfold sharedTypes in Hshared.
  repeat (apply elem_of_cons in Hshared as [->|Hshared]; [reflexivity|]).
  apply elem_of_nil in Hshared. destruct Hshared.
Qed.
End MySQLFacts.

(** X15 at a [bigint] column. *)
Lemma engines_agree_witness :
  MySQL.getFieldOptionsFromColumnInfo Users.idColumns
    (withBaseOptions Users.getBaseOptions
       (withForeignKeyInfo ∅
          (withSourceInfo None ("total", Users.column "bigint"))))
  = "Number".
Proof.
  rewrite engines_agree_on_shared_types; [reflexivity|].
  unfold sharedTypes. in_list.
Defined.

(** ** Table columns for the grid *)

Lemma append_assoc (a b c : string) : (a +:+ b) +:+ c = a +:+ (b +:+ c).
Proof.
  induction a as [|ch a IH]; [reflexivity|].
  change (String ch ((a +:+ b) +:+ c) = String ch (a +:+ (b +:+ c))).
  f_equal. exact IH.
Qed.

Lemma or_number_nonzero (n : option Z) (fallback : Z) :
  fallback <> 0 -> or_number n fallback <> 0.
Proof.
  intros Hne. destruct n as [v|]; simpl; [|exact Hne].
  destruct (Z.eqb_spec v 0); [exact Hne | assumption].
Qed.

Section GridFacts.
Variable LOCAL_STORAGE_PREFIX : string.

Local Abbreviation localStorageColumnWidthKey :=
  (localStorageColumnWidthKey LOCAL_STORAGE_PREFIX).
Local Abbreviation parseColumns := (parseColumns LOCAL_STORAGE_PREFIX).

(** X16. [parseColumns] gives one grid column per column, in order: the
    [meta] of the result are the columns that went in, and header and
    accessor are the column name, whatever the storage holds. *)
Theorem parseColumns_keeps_the_columns
    (localStorage : option (gmap string string)) (columns : list Column.t)
    (dataSourceId tableName : string) :
  let grid := parseColumns localStorage columns dataSourceId tableName in
  map meta grid = columns
  /\ map Header grid = map Column.name columns
  /\ map accessor grid = map Column.name columns
  /\ length grid = length columns.
Proof.
  cbn zeta. unfold parseColumns.
  rewrite !map_map, length_map. cbn [meta Header accessor].
  rewrite map_id. repeat split.
Qed.

(** X17. The width of a grid column is never zero, and its bounds are
    always 30 and 800. It is the default 150 when the storage cannot be
    read or holds nothing under the key of the column; otherwise it is the
    number that [parseInt] reads at the start of the stored text, or again
    150 when there is none or it is zero. The width is not brought within
    the bounds. *)
Theorem parseColumns_width
    (localStorage : option (gmap string string)) (columns : list Column.t)
    (dataSourceId tableName : string) :
  Forall (fun column =>
            let stored :=
              localStorage
              ≫= (.!! localStorageColumnWidthKey dataSourceId tableName
                        (accessor column)) in
            width column <> 0
            /\ minWidth column = 30 /\ maxWidth column = 800
            /\ width column
               = match stored with
                 | Some text => or_number (parseInt text 0) 150
                 | None => 150
                 end)
    (parseColumns localStorage columns dataSourceId tableName).
Proof.
  unfold parseColumns. apply Forall_map, Forall_forall.
  intros column _. cbn [width minWidth maxWidth accessor].
  destruct localStorage as [items|]; cbn [mbind option_bind].
  - destruct (items !! _) as [text|]; cbn [default].
    + split; [apply or_number_nonzero; discriminate|]. repeat split.
    + repeat split. discriminate.
  - repeat split. discriminate.
Qed.

(** X18. The storage key does not separate its parts: a table whose name
    ends in [-column-c] and a column [s] share their key with the table
    without that ending and the column [c-column-s], so two different
    columns of two different tables can read the same stored width. *)
Theorem localStorageColumnWidthKey_collides
    (dataSourceId tableName columnName suffix : string) :
  localStorageColumnWidthKey dataSourceId
    (tableName +:+ "-column-" +:+ columnName) suffix
  = localStorageColumnWidthKey dataSourceId tableName
      (columnName +:+ "-column-" +:+ suffix).
Proof.
  unfold localStorageColumnWidthKey.
  do 4 f_equal. rewrite !append_assoc. reflexivity.
Qed.
End GridFacts.

(** ** The widget values endpoint *)

Section WidgetValueFacts.
Variable getValueForWidget : Json -> Json -> Json.
Variable prisma : Prisma.

Local Abbreviation handler := (handler getValueForWidget prisma).

Lemma widget_loop (dataSource : Json) (widgetList : list Json)
    (response : list Json) (awaited : list Lookup) :
  foldl (fun '(response, awaited) widget =>
           (response ++ [getValueForWidget widget dataSource],
            awaited ++ [ValueForWidget widget]))
        (response, awaited) widgetList
  = (response ++ map (fun widget => getValueForWidget widget dataSource)
                   widgetList,
     awaited ++ map ValueForWidget widgetList).
Proof.
  revert response awaited.
  induction widgetList as [|widget rest IH]; intros response awaited; simpl.
  - rewrite !app_nil_r. reflexivity.
  - rewrite IH, <- !app_assoc. reflexivity.
Qed.

(** The reply of the handler, case by case. *)
Lemma handler_cases (req : NextApiRequest) :
  let id := parseInt (default "undefined" (query_dashboardId req)) 10 in
  handler req
  = if String.eqb (method req) "GET"
    then match dashboard_findFirst prisma id with
         | None => (Send 404 "", [FindDashboard id])
         | Some dashboard =>
             match dataSource_findFirst prisma (dataSourceId dashboard) with
             | None =>
                 (Send 404 "",
                  [FindDashboard id; FindDataSource (dataSourceId dashboard)])
             | Some dataSource =>
                 (JsonWithData
                    (map (fun widget => getValueForWidget widget dataSource)
                       (widgets dashboard)),
                  [FindDashboard id; FindDataSource (dataSourceId dashboard)]
                  ++ map ValueForWidget (widgets dashboard))
             end
         end
    else (Send 404 "", []).
Proof.
  cbn zeta. unfold handler, handleGET. cbn [switch].
  destruct (String.eqb (method req) "GET"); [|reflexivity].
  destruct (dashboard_findFirst prisma _) as [dashboard|]; [|reflexivity].
  destruct (dataSource_findFirst prisma _) as [dataSource|]; [|reflexivity].
  rewrite widget_loop. reflexivity.
Qed.

(** X19. When the handler replies with data, the request was a [GET], the
    dashboard and its data source were found, and the data are the values
    of the dashboard's widgets, one per widget and in widget order, each
    computed against that data source, after the two lookups. *)
Theorem handler_data_follow_the_widgets (req : NextApiRequest)
    (data : list Json) (awaited : list Lookup) :
  handler req = (JsonWithData data, awaited) ->
  method req = "GET"
  /\ exists dashboard dataSource,
       dashboard_findFirst prisma
         (parseInt (default "undefined" (query_dashboardId req)) 10)
       = Some dashboard
       /\ dataSource_findFirst prisma (dataSourceId dashboard)
          = Some dataSource
       /\ data = map (fun widget => getValueForWidget widget dataSource)
                   (widgets dashboard)
       /\ awaited
          = [ FindDashboard
                (parseInt (default "undefined" (query_dashboardId req)) 10);
              FindDataSource (dataSourceId dashboard) ]
            ++ map ValueForWidget (widgets dashboard).
Proof.
  rewrite handler_cases. cbn zeta.
  destruct (String.eqb_spec (method req) "GET") as [Hget|_]; [|discriminate].
  destruct (dashboard_findFirst prisma _) as [dashboard|] eqn:Hdashboard;
    [|discriminate].
  destruct (dataSource_findFirst prisma _) as [dataSource|] eqn:Hsource;
    [|discriminate].
  intros [= <- <-]. split; [exact Hget|].
  exists dashboard, dataSource. repeat split. exact Hsource.
Qed.

(** X20. Any other reply of the handler is a 404 with an empty body, given
    before any widget value is computed. A request that is not a [GET]
    reaches no lookup at all, and the data source is looked up only for a
    dashboard that was found. *)
Theorem handler_refusals (req : NextApiRequest) (status : Z) (text : string)
    (awaited : list Lookup) :
  handler req = (Send status text, awaited) ->
  status = 404 /\ text = ""
  /\ (forall widget, ValueForWidget widget ∉ awaited)
  /\ (method req <> "GET" -> awaited = [])
  /\ (forall id, FindDataSource id ∈ awaited ->
        exists dashboard,
          dashboard_findFirst prisma
            (parseInt (default "undefined" (query_dashboardId req)) 10)
          = Some dashboard
          /\ dataSourceId dashboard = id).
Proof.
  rewrite handler_cases. cbn zeta.
  destruct (String.eqb_spec (method req) "GET") as [Hget|Hother].
  - destruct (dashboard_findFirst prisma _) as [dashboard|] eqn:Hdashboard.
    + destruct (dataSource_findFirst prisma _) as [dataSource|];
        [discriminate|].
      intros [= <- <- <-]. repeat split.
      * intros widget Hin.
        repeat (apply elem_of_cons in Hin as [Hin|Hin]; [discriminate Hin|]).
        apply elem_of_nil in Hin. exact Hin.
      * intros Hne. contradiction.
      * intros id Hin. exists dashboard. split; [reflexivity|].
        apply elem_of_cons in Hin as [Hin|Hin]; [discriminate Hin|].
        apply list_elem_of_singleton in Hin. injection Hin as ->.
        reflexivity.
    + intros [= <- <- <-]. repeat split.
      * intros widget Hin. apply list_elem_of_singleton in Hin.
        discriminate Hin.
      * intros Hne. contradiction.
      * intros id Hin. apply list_elem_of_singleton in Hin. discriminate Hin.
  - intros [= <- <- <-]. repeat split.
    + intros widget Hin. apply elem_of_nil in Hin. exact Hin.
    + intros id Hin. apply elem_of_nil in Hin. destruct Hin.
Qed.
End WidgetValueFacts.

(** X19 at dashboard 1. *)
Lemma handler_data_witness :
  exists dashboard dataSource,
    dashboard_findFirst Board.prisma (Some 1) = Some dashboard
    /\ dataSource_findFirst Board.prisma (dataSourceId dashboard)
       = Some dataSource
    /\ [ Board.getValueForWidget (JStr "revenue")
           (JObj [ ("type", JStr "postgresql") ]);
         Board.getValueForWidget (JStr "signups")
           (JObj [ ("type", JStr "postgresql") ]) ]
       = map (fun widget => Board.getValueForWidget widget dataSource)
           (widgets dashboard).
Proof.
  destruct (handler_data_follow_the_widgets Board.getValueForWidget
              Board.prisma (Board.request "GET" "1")
              [ Board.getValueForWidget (JStr "revenue")
                  (JObj [ ("type", JStr "postgresql") ]);
                Board.getValueForWidget (JStr "signups")
                  (JObj [ ("type", JStr "postgresql") ]) ]
              [ FindDashboard (Some 1); FindDataSource 7;
                ValueForWidget (JStr "revenue");
                ValueForWidget (JStr "signups") ]
              eq_refl)
    as (_ & dashboard & dataSource & Hdashboard & Hsource & Hdata & _).
  exists dashboard, dataSource.
  split; [exact Hdashboard|]. split; [exact Hsource | exact Hdata].
Defined.

(** X20 at dashboard 2, whose data source is not found. *)
Lemma handler_refusals_witness :
  (forall widget, ValueForWidget widget ∉ [FindDashboard (Some 2);
                                            FindDataSource 9])
  /\ exists dashboard,
       dashboard_findFirst Board.prisma (Some 2) = Some dashboard
       /\ dataSourceId dashboard = 9.
Proof.
  destruct (handler_refusals Board.getValueForWidget Board.prisma
              (Board.request "GET" "2") 404 ""
              [FindDashboard (Some 2); FindDataSource 9] eq_refl)
    as (_ & _ & Hnone & _ & Hsource).
  split; [exact Hnone|].
  apply (Hsource 9). apply elem_of_cons. right.
  apply list_elem_of_singleton. reflexivity.
Defined.

(** ** Filter translation: what reaches the query *)

(** The operators that [getCondition] can give. *)
Lemma getCondition_range (filter : IFilter) :
  getCondition filter ∈ [ "="; "!="; "LIKE"; "NOT LIKE"; ">"; ">="; "<"; "<=" ].
Proof.
  unfold getCondition.
  apply (switch_Forall (fun operator => operator ∈ _)); [in_list|].
  repeat (apply Forall_cons; split; [cbn [snd]; in_list|]).
  apply Forall_nil. exact I.
Qed.

(** X21. Whatever the condition of a filter, known or not, the operator of
    every where clause of every query [getRecords] sends is one of the
    eight operators [=], [!=], [LIKE], [NOT LIKE], [>], [>=], [<] and [<=]:
    the text of a condition never reaches a query as an operator. *)
Theorem getRecords_operators_are_fixed (this : QueryService)
    (tableName : string) (limit offset : option Json)
    (filters : option (list IFilter)) (orderBy : option string)
    (orderDirection : string) (select : list string)
    (query : QueryBuilder) (column operator value : string) :
  query ∈ queries (events (getRecords this tableName limit offset filters
                             orderBy orderDirection select)) ->
  Where column operator value ∈ q_statements query ->
  operator ∈ [ "="; "!="; "LIKE"; "NOT LIKE"; ">"; ">="; "<"; "<=" ].
Proof.
  rewrite getRecords_run. cbn zeta.
  destruct (negativeOffset limit offset); intros Hquery;
    [apply elem_of_nil in Hquery; destruct Hquery|].
  apply list_elem_of_singleton in Hquery. subst query.
  intros Hin. cbn [q_statements] in Hin.
  apply elem_of_app in Hin as [Hin|Hin].
  { destruct (paginated limit offset).
    - apply list_elem_of_singleton in Hin. discriminate Hin.
    - apply elem_of_nil in Hin. destruct Hin. }
  apply elem_of_app in Hin as [Hin|Hin].
  - apply list_elem_of_fmap in Hin as (f & [= -> -> ->] & _).
    apply getCondition_range.
  - destruct (truthy orderBy).
    + apply list_elem_of_singleton in Hin. discriminate Hin.
    + apply elem_of_nil in Hin. destruct Hin.
Qed.

(** X22. The conditions [is_empty] and [is_not_empty] compile to the same
    clause, [column LIKE ''], whatever the value of the filter: the two
    filters cannot select different rows, and neither reads its value. *)
Theorem is_empty_and_is_not_empty_compile_alike (this : QueryService)
    (tableName column value1 value2 : string) :
  let sent condition value :=
    queries (events (getRecords this tableName None None
                       (Some [ {| columnName := column;
                                  condition := condition;
                                  value := value |} ])
                       None "asc" [])) in
  sent StringFilterConditions.is_empty value1
  = [ Knex.where_ column "LIKE" "" (Knex.table tableName) ]
  /\ sent StringFilterConditions.is_not_empty value2
     = sent StringFilterConditions.is_empty value1.
Proof.
  cbv beta zeta. rewrite !getRecords_run. cbn [negativeOffset paginated].
  split; reflexivity.
Qed.

(** ** Credentials of the MySQL service *)

Section CredentialHost.
Variable decrypt : string -> option string.
Variable JSON_parse : string -> option Json.

(** [getParsedCredentials], test by test. *)
Lemma getParsedCredentials_cases (dataSource : option DataSource) :
  getParsedCredentials decrypt JSON_parse dataSource
  = match dataSource ≫= encryptedCredentials with
    | None => Thrown "No data source provided."
    | Some encrypted =>
        if String.eqb encrypted "" then Thrown "No data source provided."
        else
          match decrypt encrypted with
          | None => Thrown "No credentials on record."
          | Some plain =>
              if String.eqb plain "" then Thrown "No credentials on record."
              else
                match JSON_parse plain with
                | Some credentials => Returned credentials
                | None => Thrown "Failed to parse encrypted credentials"
                end
          end
    end.
Proof.
  unfold getParsedCredentials.
  destruct dataSource as [[[encrypted|]]|]; simpl; try reflexivity.
  destruct (String.eqb encrypted ""); simpl; try reflexivity.
  destruct (decrypt encrypted) as [plain|]; simpl; try reflexivity.
  destruct (String.eqb plain ""); reflexivity.
Qed.

(** When [getCredentials] returns, and the messages it can throw. *)
Lemma getCredentials_returned_or_thrown (dataSource : option DataSource)
    (credentials : Json) :
  (getCredentials decrypt JSON_parse dataSource = Returned credentials
   <-> exists encrypted plain fields,
         dataSource ≫= encryptedCredentials = Some encrypted
         /\ encrypted <> ""
         /\ decrypt encrypted = Some plain /\ plain <> ""
         /\ JSON_parse plain = Some credentials
         /\ credentials = JObj fields
         /\ truthyValue (property "host" fields) = true)
  /\ forall message,
       getCredentials decrypt JSON_parse dataSource = Thrown message ->
       message ∈ [ "No data source provided."; "No credentials on record.";
                   "Failed to parse encrypted credentials" ].
Proof.
  unfold getCredentials. rewrite getParsedCredentials_cases.
  destruct (dataSource ≫= encryptedCredentials) as [encrypted|].
  2: { split; [split; [discriminate|]| intros message [= <-]; in_list].
       intros (e & p & f & [=] & _). }
  destruct (String.eqb_spec encrypted "") as [->|Hencrypted].
  { split; [split; [discriminate|]| intros message [= <-]; in_list].
    intros (e & p & f & [= <-] & He & _). contradiction. }
  destruct (decrypt encrypted) as [plain|] eqn:Hplain.
  2: { split; [split; [discriminate|]| intros message [= <-]; in_list].
       intros (e & p & f & [= <-] & _ & Hd & _).
       rewrite Hplain in Hd. discriminate Hd. }
  destruct (String.eqb_spec plain "") as [->|Hne].
  { split; [split; [discriminate|]| intros message [= <-]; in_list].
    intros (e & p & f & [= <-] & _ & Hd & Hp & _).
    rewrite Hplain in Hd. injection Hd as <-. contradiction. }
  destruct (JSON_parse plain) as [parsed|] eqn:Hparsed.
  2: { split; [split; [discriminate|]| intros message [= <-]; in_list].
       intros (e & p & f & [= <-] & _ & Hd & _ & Hj & _).
       rewrite Hplain in Hd. injection Hd as <-.
       rewrite Hparsed in Hj. discriminate Hj. }
  assert (Hback :
    (exists e p f,
        Some encrypted = Some e /\ e <> "" /\ decrypt e = Some p /\ p <> ""
        /\ JSON_parse p = Some credentials /\ credentials = JObj f
        /\ truthyValue (property "host" f) = true)
    -> exists f, parsed = JObj f /\ credentials = JObj f
                 /\ truthyValue (property "host" f) = true).
  { intros (e & p & f & [= <-] & _ & Hd & _ & Hj & Hc & Hh).
    rewrite Hplain in Hd. injection Hd as <-.
    rewrite Hparsed in Hj. injection Hj as ->. exists f. auto. }
  destruct parsed as [|b|n|text|items|fields];
    try (cbn [member truthyValue]; rewrite ?orb_true_r;
         split; [split; [discriminate|]| intros message [= <-]; in_list];
         intros H; apply Hback in H as (f & [=] & _)).
  cbn [member truthyValue orb negb].
  destruct (truthyValue (property "host" fields)) eqn:Hhost; cbn [negb].
  - split; [|discriminate]. split.
    + intros [= <-]. exists encrypted, plain, fields.
      repeat split; assumption.
    + intros H. apply Hback in H as (f & [= <-] & -> & _). reflexivity.
  - split; [split; [discriminate|]| intros message [= <-]; in_list].
    intros H. apply Hback in H as (f & [= <-] & _ & Hh).
    rewrite Hhost in Hh. discriminate Hh.
Qed.

(** X13. The MySQL [getCredentials] returns credentials exactly when the
    data source is there with a non-empty encrypted blob, the blob decrypts
    to a non-empty text, the text parses, and what it parses to is an
    object with a truthy [host]. In every other case it throws, with one
    of three messages: an error of [getParsedCredentials] passes through
    unchanged, and parsed credentials that are not an object with a truthy
    [host] are refused as [No credentials on record.]. *)
Theorem getCredentials_returns_iff (dataSource : option DataSource)
    (credentials : Json) :
  (getCredentials decrypt JSON_parse dataSource = Returned credentials
   <-> exists encrypted plain fields,
         dataSource ≫= encryptedCredentials = Some encrypted
         /\ encrypted <> ""
         /\ decrypt encrypted = Some plain /\ plain <> ""
         /\ JSON_parse plain = Some credentials
         /\ credentials = JObj fields
         /\ truthyValue (property "host" fields) = true)
  /\ (forall message,
        getCredentials decrypt JSON_parse dataSource = Thrown message ->
        message ∈ [ "No data source provided."; "No credentials on record.";
                    "Failed to parse encrypted credentials" ])
  /\ (forall message,
        getParsedCredentials decrypt JSON_parse dataSource = Thrown message ->
        getCredentials decrypt JSON_parse dataSource = Thrown message)
  /\ (forall encrypted plain parsed,
        dataSource ≫= encryptedCredentials = Some encrypted ->
        encrypted <> "" ->
        decrypt encrypted = Some plain -> plain <> "" ->
        JSON_parse plain = Some parsed ->
        (forall fields, parsed = JObj fields ->
                        truthyValue (property "host" fields) = false) ->
        getCredentials decrypt JSON_parse dataSource
        = Thrown "No credentials on record.").
Proof.
  destruct (getCredentials_returned_or_thrown dataSource credentials)
    as [Hreturns Hthrows].
  split; [exact Hreturns|]. split; [exact Hthrows|]. split.
  - intros message Hparsed. unfold getCredentials.
    rewrite Hparsed. reflexivity.
  - intros encrypted plain parsed Hencrypted Hne Hplain Hne' Hparsed Hhost.
    unfold getCredentials. rewrite getParsedCredentials_cases, Hencrypted.
    apply String.eqb_neq in Hne, Hne'.
    rewrite Hne, Hplain, Hne', Hparsed.
    destruct parsed as [|b|n|text|items|fields];
      cbn [member truthyValue negb orb]; rewrite ?orb_true_r;
      try reflexivity.
    rewrite (Hhost fields eq_refl). reflexivity.
Qed.
End CredentialHost.

(** ** From the engine to the grid *)

(** X23. The grid that [parseColumns] builds from the columns that
    [getColumns] returns has one column per column of the engine's
    dictionary, in its order, with the engine's column names as headers and
    accessors, whatever the stored configuration and the stored widths. *)
Theorem grid_shows_the_engine_columns (humanize : string -> string)
    (idColumns : list string) (getBaseOptions : Options)
    (loadModule : string -> Imported) (this : QueryService)
    (LOCAL_STORAGE_PREFIX dataSourceId tableName : string)
    (storedColumns : option (gmap string StoredColumn.t))
    (localStorage : option (gmap string string)) :
  exists columns,
    outcome (getColumns humanize idColumns getBaseOptions loadModule this
               tableName storedColumns) = Returned columns
    /\ let grid := parseColumns LOCAL_STORAGE_PREFIX localStorage columns
                     dataSourceId tableName in
       map Header grid = map fst (client_columnInfo (client this) tableName)
       /\ map accessor grid
          = map fst (client_columnInfo (client this) tableName).
Proof.
  eexists. split; [apply getColumns_returned|]. cbn zeta.
  unfold parseColumns. rewrite !map_map. cbn [Header accessor].
  split; apply map_ext; intros e; apply assembled_name.
Qed.

(** ** The further properties at the worked table *)

(** X4 at an update of [users]. *)
Lemma mutations_restricted_witness :
  exists pk,
    primaryKeyOf Users.service "users" = Some pk /\ pk <> ""
    /\ q_statements
         (Knex.where_eq "id" "7"
            (Knex.with_method MUpdate (Some (JObj [("email", JStr "a@b.c")]))
               (Knex.table "users")))
       = [Where pk "=" "7"].
Proof.
  destruct (mutations_are_restricted_to_the_primary_key Users.service
              "users" "7" [] (JObj [("email", JStr "a@b.c")]))
    as (Hupdate & _ & _).
  destruct (Hupdate (Knex.where_eq "id" "7"
                       (Knex.with_method MUpdate (Some (JObj [("email", JStr "a@b.c")]))
                          (Knex.table "users"))))
    as (pk & Hpk & Hne & Hquery & _).
  { apply list_elem_of_singleton. reflexivity. }
  exists pk. split; [exact Hpk|]. split; [exact Hne|].
  rewrite Hquery. reflexivity.
Defined.

(** X9 at [manager_id] of [users]. *)
Lemma foreignKeyInfo_witness :
  exists column info,
    Users.column_named "manager_id" (Users.getColumns "users" None)
    = Some column
    /\ Column.foreignKeyInfo column = Some info
    /\ ForeignKeyInfo.tableName info = "users"
    /\ ForeignKeyInfo.columnName info = "manager_id".
Proof.
  destruct (foreignKeyInfo_is_a_constraint_of_the_column Users.humanize
              Users.idColumns Users.getBaseOptions Users.loadModule
              Users.service "users" None) as (columns & Hrun & Hall).
  run_columns Hrun.
  eexists. eexists. split; [vm_compute; reflexivity|].
  split; [vm_compute; reflexivity|].
  lazymatch goal with
  | |- ForeignKeyInfo.tableName ?info = _ /\ _ =>
      destruct (Hall _ ltac:(nth_column 2%nat)) as [_ Hinfo];
      [ refine (bool_decide_unpack _ _); vm_compute; exact I
      | destruct (Hinfo info eq_refl) as (Htable & Hcolumn & _) ]
  end.
  split; [exact Htable | exact Hcolumn].
Defined.

(** X10 at [manager_id] of [users]. *)
Lemma Association_witness :
  exists column,
    Users.column_named "manager_id" (Users.getColumns "users" None)
    = Some column
    /\ Column.fieldType column = "Association".
Proof.
  destruct (Association_is_inferred_only_from_a_foreign_key Users.humanize
              Users.idColumns Users.getBaseOptions Users.loadModule
              Users.service "users" None) as (columns & Hrun & Hall).
  run_columns Hrun.
  eexists. split; [vm_compute; reflexivity|].
  apply (Hall _ ltac:(nth_column 2%nat) eq_refl). eexists. reflexivity.
Defined.

(** X11 at [id] of [users]. *)
Lemma inferred_fieldType_witness :
  exists column,
    Users.column_named "id" (Users.getColumns "users" None) = Some column
    /\ Column.fieldType column ∈ inferable.
Proof.
  destruct (inferred_fieldType_range Users.humanize Users.idColumns
              Users.getBaseOptions Users.loadModule Users.service "users"
              None) as (columns & Hrun & Hall).
  run_columns Hrun.
  eexists. split; [vm_compute; reflexivity|].
  apply (Hall _ ltac:(nth_column 0%nat) eq_refl).
Defined.

(** X21 at a [contains] filter. *)
Lemma operators_witness :
  Knex.where_ "name" "LIKE" "%an%" (Knex.table "users")
  ∈ queries (events (getRecords Users.service "users" None None
                       (Some [ {| columnName := "name";
                                  condition := "contains";
                                  value := "an" |} ])
                       None "asc" []))
  /\ Where "name" "LIKE" "%an%"
     ∈ q_statements (Knex.where_ "name" "LIKE" "%an%" (Knex.table "users"))
  /\ "LIKE" ∈ [ "="; "!="; "LIKE"; "NOT LIKE"; ">"; ">="; "<"; "<=" ].
Proof.
  assert (Hsent :
    Knex.where_ "name" "LIKE" "%an%" (Knex.table "users")
    ∈ queries (events (getRecords Users.service "users" None None
                         (Some [ {| columnName := "name";
                                    condition := "contains";
                                    value := "an" |} ])
                         None "asc" []))).
  { apply list_elem_of_singleton. reflexivity. }
  assert (Hclause :
    Where "name" "LIKE" "%an%"
    ∈ q_statements (Knex.where_ "name" "LIKE" "%an%" (Knex.table "users"))).
  { apply list_elem_of_singleton. reflexivity. }
  split; [exact Hsent|]. split; [exact Hclause|].
  exact (getRecords_operators_are_fixed Users.service "users" None None
           (Some [ {| columnName := "name"; condition := "contains";
                      value := "an" |} ])
           None "asc" [] _ "name" "LIKE" "%an%" Hsent Hclause).
Defined.


(** X2 at the first page of [users], by [email]. *)
Lemma getRecords_ordering_witness :
  exists query before,
    events (getRecords Users.service "users" (Some (JNum 10)) (Some (JNum 0))
              None (Some "email") "desc" ["id"; "email"]) = [Run query]
    /\ q_statements query = before ++ [OrderBy "users.email" "desc"]
    /\ List.filter isOrderBy before = [].
Proof.
  destruct (getRecords_orders_by_qualified_column Users.service "users"
              (Some (JNum 10)) (Some (JNum 0)) None (Some "email") "desc"
              ["id"; "email"])
    as (query & Hrun & before & Hquery & Hbefore).
  { intros l o _ [= <-]. lia. }
  exists query, before.
  split; [exact Hrun|]. split; [exact Hquery | exact Hbefore].
Defined.

(** X5 at an update of [users] without values. *)
Lemma empty_update_witness :
  updateRecord Users.service "users" "7" (JObj [])
  = (Thrown ("Empty .update() call detected! "
             +:+ "Update data does not contain any values to update. "
             +:+ "This will result in a faulty query. "
             +:+ "Table: users. Columns: ."),
     [InspectColumns "users"]).
Proof.
  destruct (primary_key_operations_throw_iff Users.service "users" "7" []
              JNull []) as (_ & _ & _ & _ & _ & Hempty).
  destruct (Hempty eq_refl) as (message & Hrun & _).
  rewrite Hrun. vm_compute in Hrun. injection Hrun as <-. reflexivity.
Defined.
